(** * github_scout: the search client, the score engine and the category planner

    A shallow embedding of [GitHubTrendingScanner] (src/functions.py and its
    copy in src/test.py), of the content helpers of src/functions.py
    ([determine_content_type], [generate_video_tags], [get_target_audience],
    [get_optimal_upload_time]) and of [get_repos] (src/main.py).

    Conventions of the embedding.
    - Python [int] is [Z].  A [datetime] is an integer number of
      microseconds on the naive time line, counted from 1970-01-01T00:00:00
      where the range of [datetime] matters.
    - The library boundary ([datetime.strptime], [strftime], [datetime.now],
      [requests.get]) is an interface, [Platform]; every theorem holds for
      all of its implementations.  So are the Unicode-aware [str.lower] and
      [str.strip] ([StrMethods]) and the lookup of [rate.remaining] in the
      body of the quota-status endpoint ([RateLimitApi]).
    - Methods run in a state-and-exception monad over the scanner's mutable
      field, the count of clock reads, the HTTP requests sent and the
      Streamlit notices shown.
    - The scanner is read twice.  [Module Functions] (and [Module Test], its
      copy) reads it on well-formed data with exact arithmetic: a [float] is
      the rational it stands for ([Q]), without rounding or overflow; dates
      have no bounds; [items], when the body has it, is a list.
      [Module Cpython] reads the search, the scoring and the scan of
      src/functions.py on the values the interpreter computes: floats behind
      the interface [FloatArith], which [Binary64] implements as IEEE 754
      binary64, with the OverflowError of an [int] too large for a float;
      the OverflowError of a date out of [datetime]'s range; [null] under
      [items] ([RawJson]).  [exact_scan] shows that with exact arithmetic
      ([Exact]), a date in range and no [null] the two readings are the
      same. *)

From Stdlib Require Import ZArith QArith Qminmax Qabs List String Ascii Bool.
From Stdlib Require Import Qround Lia Lqa Sorted Permutation DecimalString.
Import ListNotations.

Local Open Scope string_scope.
Local Open Scope Z_scope.

(** ** Python values *)

(** [d.get(key, default)] on a field that is [None] when the key is absent. *)
Definition get {A : Type} (field : option A) (default : A) : A :=
  match field with
  | Some v => v
  | None => default
  end.

(** A dict with string keys, in insertion order. *)
Definition dict (V : Type) : Type := list (string * V).

Fixpoint lookup {V : Type} (d : dict V) (key : string) : option V :=
  match d with
  | [] => None
  | (k, v) :: rest => if String.eqb k key then Some v else lookup rest key
  end.

(** [key in d] *)
Definition contains {V : Type} (d : dict V) (key : string) : bool :=
  match lookup d key with
  | Some _ => true
  | None => false
  end.

(** [x < y] on floats. *)
Definition Qltb (x y : Q) : bool := negb (Qle_bool y x).

(** The builtin [max(a, b)]: the first argument unless the second is
    strictly greater. *)
Definition py_max (a b : Q) : Q := if Qltb a b then b else a.

(** [str(n)] for an [int]. *)
Definition str_of_int (n : Z) : string := NilEmpty.string_of_int (Z.to_int n).

(** ** Fixed-point formatting, [f"{x:.kf}"] *)

Definition round_half_even (q : Q) : Z :=
  let n := Qnum q in
  let d := Z.pos (Qden q) in
  let fl := n / d in
  let twice := 2 * (n mod d) in
  if (twice <? d)%Z then fl
  else if (d <? twice)%Z then fl + 1
  else if Z.even fl then fl else fl + 1.

Definition zfill (width : nat) (s : string) : string :=
  match width - String.length s with
  | O => s
  | S k => String.append (string_of_list_ascii (repeat "0"%char (S k))) s
  end%nat.

Definition format_f (k : nat) (x : Q) : string :=
  let unit := 10 ^ Z.of_nat k in
  let scaled := round_half_even (Qabs x * inject_Z unit) in
  let body :=
    match k with
    | O => str_of_int scaled
    | _ => str_of_int (scaled / unit) ++ "." ++ zfill k (str_of_int (scaled mod unit))
    end in
  if Qltb x 0 then "-" ++ body else body.

(** ** datetime *)

Definition datetime : Type := Z.
Definition timedelta : Type := Z.

Definition US_PER_DAY : Z := 86400000000.

(** [timedelta(days=n)] *)
Definition timedelta_of_days (n : Z) : timedelta := n * US_PER_DAY.

(** [td.days]: a timedelta is normalised with [0 <= seconds < 86400] and
    [0 <= microseconds < 1000000], so [days] is the floor. *)
Definition days (td : timedelta) : Z := td / US_PER_DAY.

(** ** Repository records and the HTTP boundary *)

(** A repository object of the search response.  A field is [None] when the
    key is absent ([language] also when it is [null]). *)
Record repo : Type := {
  full_name : option string;
  stargazers_count : option Z;
  forks_count : option Z;
  watchers_count : option Z;
  created_at : option string;
  language : option string;
  topics : option (list string);
  has_wiki : option bool;
  open_issues_count : option Z
}.

(** The dict returned by [calculate_interest_score]. *)
Record scored : Type := {
  sr_repo : repo;
  score : Q;
  reasoning : string
}.

Inductive param : Type :=
| PStr (s : string)
| PInt (n : Z).

Record request : Type := {
  url : string;
  req_headers : option (dict string);
  params : dict param;
  timeout : option Z
}.

(** What [response.json()] decodes: an object, with its [items] array when
    it has one, or some other JSON value. *)
Inductive json : Type :=
| JObject (items : option (list repo))
| JOther.

(** [body] is [None] when the text is not JSON. *)
Record response : Type := {
  status_code : Z;
  text : string;
  body : option json
}.

(** The three ways [requests.get] ends. *)
Inductive outcome : Type :=
| Responded (r : response)
| TimedOut
| Failed (msg : string).

Inductive exn : Type :=
| Timeout
| RequestException (msg : string)
| HTTPError (status : Z)
| JSONDecodeError
| AttributeError
| TypeError
| KeyError (key : string)
| ValueError
| OverflowError.

(** ** The library boundary *)

Class Platform : Type := {
  (** [datetime.strptime(s, '%Y-%m-%dT%H:%M:%SZ')]; [None] is ValueError. *)
  strptime : string -> option datetime;
  (** [t.strftime('%Y-%m-%d')] *)
  strftime : datetime -> string;
  (** the value of the n-th call of [datetime.now()] *)
  clock : nat -> datetime;
  (** how the n-th call of [requests.get] ends *)
  network : nat -> request -> outcome
}.

(** ** Streamlit notices *)

Inductive notice : Type :=
| RateLimitLow                              (* "GitHub API rate limit low. ..." *)
| RateLimitExceeded                         (* "GitHub API rate limit exceeded. ..." *)
| InvalidSearchQuery (query : string)       (* "Invalid search query: {query}" *)
| GitHubApiError (status : Z) (text : string) (* "GitHub API error: {status} - {text[:200]}" *)
| RequestTimedOut                           (* "Request timed out. ..." *)
| ErrorFetching (e : exn)                   (* "Error fetching repositories: {str(e)}" *)
| UnknownCategory (category : string).      (* "Unknown category: {category}" *)

Inductive shown_notice : Type :=
| StWarning (n : notice)
| StError (n : notice).

(** ** State and the monad *)

Record state : Type := {
  rate_limit_remaining : Z;        (* self.rate_limit_remaining *)
  headers : dict string;           (* self.headers *)
  ticks : nat;                     (* calls of datetime.now() so far *)
  sent : list request;             (* requests sent, most recent first *)
  shown : list shown_notice        (* notices shown, most recent first *)
}.

(** The state after [self.rate_limit_remaining = n]. *)
Definition with_remaining (n : Z) (s : state) : state :=
  {| rate_limit_remaining := n; headers := headers s; ticks := ticks s;
     sent := sent s; shown := shown s |}.

(** The state after one more read of the clock. *)
Definition tick (s : state) : state :=
  {| rate_limit_remaining := rate_limit_remaining s; headers := headers s;
     ticks := S (ticks s); sent := sent s; shown := shown s |}.

(** The state after [rq] went out. *)
Definition record_request (rq : request) (s : state) : state :=
  {| rate_limit_remaining := rate_limit_remaining s; headers := headers s;
     ticks := ticks s; sent := rq :: sent s; shown := shown s |}.

(** The state after [st.warning] or [st.error] showed [n]. *)
Definition notify (n : shown_notice) (s : state) : state :=
  {| rate_limit_remaining := rate_limit_remaining s; headers := headers s;
     ticks := ticks s; sent := sent s; shown := n :: shown s |}.

Inductive result (A : Type) : Type :=
| Return (a : A)
| Raise (e : exn).
Arguments Return {A} a.
Arguments Raise {A} e.

Definition M (A : Type) : Type := state -> result A * state.

Definition ret {A : Type} (a : A) : M A := fun s => (Return a, s).

Definition raise {A : Type} (e : exn) : M A := fun s => (Raise e, s).

Definition bind {A B : Type} (m : M A) (k : A -> M B) : M B :=
  fun s =>
    match m s with
    | (Return a, s') => k a s'
    | (Raise e, s') => (Raise e, s')
    end.

(** [try: m except: h]; the handler runs in the state the exception left. *)
Definition try_except {A : Type} (m : M A) (h : exn -> M A) : M A :=
  fun s =>
    match m s with
    | (Return a, s') => (Return a, s')
    | (Raise e, s') => h e s'
    end.

Notation "x <- m ;; k" := (bind m (fun x => k))
  (at level 61, m at next level, right associativity).
Notation "m ;;; k" := (bind m (fun _ => k))
  (at level 61, right associativity).

Definition get_rate_limit_remaining : M Z :=
  fun s => (Return (rate_limit_remaining s), s).

Definition set_rate_limit_remaining (n : Z) : M unit :=
  fun s => (Return tt, with_remaining n s).

Definition get_headers : M (dict string) :=
  fun s => (Return (headers s), s).

Definition st_show (n : shown_notice) : M unit :=
  fun s => (Return tt, notify n s).

Definition st_warning (n : notice) : M unit := st_show (StWarning n).
Definition st_error (n : notice) : M unit := st_show (StError n).

Section PlatformCalls.
Context {P : Platform}.

(** [datetime.now()] *)
Definition datetime_now : M datetime :=
  fun s => (Return (clock (ticks s)), tick s).

(** [datetime.strptime(field, '%Y-%m-%dT%H:%M:%SZ')] on [repo['created_at']] *)
Definition datetime_strptime (s : string) : M datetime :=
  match strptime s with
  | Some t => ret t
  | None => raise ValueError
  end.

(** [requests.get(...)] *)
Definition requests_get (rq : request) : M response :=
  fun s =>
    let s' := record_request rq s in
    match network (List.length (sent s)) rq with
    | Responded r => (Return r, s')
    | TimedOut => (Raise Timeout, s')
    | Failed msg => (Raise (RequestException msg), s')
    end.
End PlatformCalls.

(** [d[key]] on an optional field: KeyError when the key is absent. *)
Definition subscript {A : Type} (field : option A) (key : string) : M A :=
  match field with
  | Some v => ret v
  | None => raise (KeyError key)
  end.

(** [response.json()] *)
Definition response_json (r : response) : M json :=
  match body r with
  | Some j => ret j
  | None => raise JSONDecodeError
  end.

(** [response.raise_for_status()] *)
Definition raise_for_status (r : response) : M unit :=
  if ((400 <=? status_code r)%Z && (status_code r <? 600)%Z)%bool
  then raise (HTTPError (status_code r))
  else ret tt.

(** ** [sorted(l, key=..., reverse=True)]

    [list.sort] is stable; with [reverse=True] it reverses the list, sorts
    it forward and reverses the result, which keeps equal keys in their
    original order. *)
Section Sorted.
Context {A : Type} (key : A -> Q).

Fixpoint insert (x : A) (l : list A) : list A :=
  match l with
  | [] => [x]
  | y :: ys => if Qltb (key y) (key x) then y :: insert x ys else x :: y :: ys
  end.

Fixpoint stable_sort (l : list A) : list A :=
  match l with
  | [] => []
  | x :: xs => insert x (stable_sort xs)
  end.

Definition sorted (reverse : bool) (l : list A) : list A :=
  if reverse then rev (stable_sort (rev l)) else stable_sort l.

Definition ascending (a b : A) : Prop := (key a <= key b)%Q.
Definition descending (a b : A) : Prop := (key b <= key a)%Q.

(** The elements whose key equals [v], in list order. *)
Definition with_key (v : Q) (l : list A) : list A :=
  filter (fun a => Qeq_bool (key a) v) l.
End Sorted.

(** ** More of the Python runtime: [str] methods, raw objects *)

(** The [str] methods the code calls; they work on Unicode text. *)
Class StrMethods : Type := {
  (** [s.lower()] *)
  lower : string -> string;
  (** [s.strip()] *)
  strip : string -> string
}.

(** [needle in hay] on two strings: [needle] occurs somewhere in [hay]. *)
Fixpoint str_contains (needle hay : string) : bool :=
  if String.prefix needle hay then true
  else match hay with
       | EmptyString => false
       | String _ rest => str_contains needle rest
       end.

(** [x in l] on a list of strings. *)
Definition mem (x : string) (l : list string) : bool :=
  existsb (String.eqb x) l.

(** The truth value of a string: false only for the empty one. *)
Definition truthy (s : string) : bool := negb (String.eqb s "").

(** A key of a JSON object as the helpers meet it: absent, present with
    [null], or present with a value of the type the API gives it. *)
Inductive field (A : Type) : Type :=
| Absent
| Null
| Present (a : A).
Arguments Absent {A}.
Arguments Null {A}.
Arguments Present {A} a.

(** The repository object that the content helpers read. *)
Record repo_object : Type := {
  o_stargazers_count : field Z;
  o_forks_count : field Z;
  o_created_at : field string;
  o_language : field string;
  o_description : field string;
  o_topics : field (list string)
}.

(** [repo[key]]: KeyError when the key is absent, [None] when it is null. *)
Definition item {A : Type} (f : field A) (key : string) : M (option A) :=
  match f with
  | Absent => raise (KeyError key)
  | Null => ret None
  | Present a => ret (Some a)
  end.

(** [repo.get(key, default)]: the default only when the key is absent. *)
Definition get_item {A : Type} (f : field A) (default : A) : option A :=
  match f with
  | Absent => Some default
  | Null => None
  | Present a => Some a
  end.

(** [repo.get(key)] *)
Definition get_item_none {A : Type} (f : field A) : option A :=
  match f with
  | Absent | Null => None
  | Present a => Some a
  end.

(** An operation that [None] does not support raises [e]. *)
Definition not_none {A : Type} (v : option A) (e : exn) : M A :=
  match v with
  | Some a => ret a
  | None => raise e
  end.

(** The five strings [determine_content_type] returns, each after an emoji
    and a space. *)
Inductive content_type : Type :=
| PopularRepositorySpotlight     (* "Popular Repository Spotlight" *)
| RisingStarAnalysis             (* "Rising Star Analysis" *)
| HiddenGemDiscovery             (* "Hidden Gem Discovery" *)
| AIToolReview                   (* "AI Tool Review" *)
| RepositoryDeepDive.            (* "Repository Deep Dive" *)

(** ** The quota-status endpoint *)

(** What [data['rate']['remaining']] evaluates to on a decoded object. *)
Inductive rate_lookup : Type :=
| NoRate                 (* no 'rate' key: KeyError *)
| RateNotObject          (* data['rate'] has no string keys: TypeError *)
| NoRemaining            (* no 'remaining' key: KeyError *)
| Remaining (n : Z).     (* an integer, as the API gives it *)

Class RateLimitApi : Type := {
  (** the lookup on the object decoded from a response *)
  rate_of : response -> rate_lookup
}.

(** The second component of what [check_rate_limit] returns. *)
Inductive rate_limit_report : Type :=
| RateLimitData (data : json)              (* the decoded body *)
| RateLimitCheckFailed (status : Z)        (* "Rate limit check failed: {status}" *)
| CouldNotCheckRateLimit (e : exn).        (* "Could not check rate limit: {e}" *)

(** ** Floating point

    The arithmetic of Python's [float] as the scanner uses it.  The
    operations are an interface; [Binary64] below implements it. *)
Class FloatArith : Type := {
  float : Type;
  (** the value of a decimal literal of the source *)
  fl_lit : Q -> float;
  (** the conversion of an [int] operand; [None] is OverflowError ("int too
      large to convert to float") *)
  fl_of_int : Z -> option float;
  fl_add : float -> float -> float;
  fl_sub : float -> float -> float;
  fl_mul : float -> float -> float;
  (** [a / b] on two [int]s, [b] positive; [None] is OverflowError *)
  fl_int_div : Z -> positive -> option float;
  (** [x < y] *)
  fl_ltb : float -> float -> bool;
  (** [x != x] *)
  fl_is_nan : float -> bool;
  (** [f"{x:.kf}"] *)
  fl_format : nat -> float -> string
}.

(** The builtin [max(a, b)] on floats: the first argument unless the second
    is strictly greater. *)
Definition fl_max {F : FloatArith} (a b : float) : float :=
  if fl_ltb a b then b else a.



(** ** [sorted(l, key=..., reverse=True)] on any comparison *)
Section SortedBy.
Context {A : Type} (lt : A -> A -> bool).

Fixpoint insert_by (x : A) (l : list A) : list A :=
  match l with
  | [] => [x]
  | y :: ys => if lt y x then y :: insert_by x ys else x :: y :: ys
  end.

Fixpoint stable_sort_by (l : list A) : list A :=
  match l with
  | [] => []
  | x :: xs => insert_by x (stable_sort_by xs)
  end.

Definition sorted_by (reverse : bool) (l : list A) : list A :=
  if reverse then rev (stable_sort_by (rev l)) else stable_sort_by l.
End SortedBy.

(** ** The range of [datetime] and [timedelta]

    With microseconds counted from 1970-01-01T00:00:00. *)

(** [datetime.min], 0001-01-01T00:00:00 *)
Definition datetime_min : datetime := -62135596800000000.

(** [datetime.max], 9999-12-31T23:59:59.999999 *)
Definition datetime_max : datetime := 253402300799999999.

(** [timedelta(days=n)]: OverflowError beyond 999999999 days. *)
Definition timedelta_days (n : Z) : M timedelta :=
  if (Z.abs n <=? 999999999)%Z then ret (timedelta_of_days n)
  else raise OverflowError.

(** [t - td] for a datetime [t]: OverflowError when the date is out of
    range. *)
Definition datetime_minus (t : datetime) (td : timedelta) : M datetime :=
  let r := (t - td)%Z in
  if ((datetime_min <=? r)%Z && (r <=? datetime_max)%Z)%bool then ret r
  else raise OverflowError.

(** ** JSON [null] under [items] *)
Class RawJson : Type := {
  (** the object decoded from the response holds [null] under [items]; the
      typed [items] of [JObject] is then of no account *)
  items_null : response -> bool
}.

(** ** src/functions.py: [GitHubTrendingScanner] *)
Module Functions.
Section Scanner.
Context {P : Platform}.

Definition GITHUB_API_BASE : string := "https://api.github.com".

Definition search_repositories (query : string) (sort : string)
  (per_page : Z) : M (list repo) :=
remaining <- get_rate_limit_remaining ;;
if (remaining <=? 5)%Z then
  st_warning RateLimitLow ;;;
  ret []
else
  let url := GITHUB_API_BASE ++ "/search/repositories" in
  let params := [("q", PStr query); ("sort", PStr sort);
                 ("order", PStr "desc"); ("per_page", PInt per_page)] in
  try_except
    (hdrs <- get_headers ;;
     response <- requests_get {| url := url; req_headers := Some hdrs;
                                 params := params; timeout := Some 10 |} ;;
     if (status_code response =? 200)%Z then
       remaining <- get_rate_limit_remaining ;;
       set_rate_limit_remaining (remaining - 1) ;;;
       data <- response_json response ;;
       match data with
       | JObject items => ret (get items [])
       | JOther => raise AttributeError
       end
     else if (status_code response =? 403)%Z then
       st_error RateLimitExceeded ;;;
       ret []
     else if (status_code response =? 422)%Z then
       st_error (InvalidSearchQuery query) ;;;
       ret []
     else
       st_error (GitHubApiError (status_code response)
                                (substring 0 200 (text response))) ;;;
       ret [])
    (fun e =>
       match e with
       | Timeout => st_error RequestTimedOut ;;; ret []
       | _ => st_error (ErrorFetching e) ;;; ret []
       end).

Definition base_popularity (r : repo) : Q :=
(inject_Z (get (stargazers_count r) 0%Z) * 1.0 +
 inject_Z (get (forks_count r) 0%Z) * 2.0 +
 inject_Z (get (watchers_count r) 0%Z) * 1.5)%Q.

(** The [try] block of lines 117-122; the bare [except] catches the
  KeyError of a missing key and the ValueError of [strptime] alike. *)
Definition recency_multiplier (r : repo) : M Q :=
try_except
  (field <- subscript (created_at r) "created_at" ;;
   created_date <- datetime_strptime field ;;
   now <- datetime_now ;;
   let days_old := days (now - created_date) in
   ret (py_max 0.1 (1.0 - (inject_Z days_old / 365)))%Q)
  (fun _ => ret 0.5%Q).

Definition activity_score (r : repo) : Q :=
(inject_Z (get (open_issues_count r) 0%Z) * 0.1 +
 (if get (has_wiki r) false then 10 else 0) +
 inject_Z (Z.of_nat (List.length (get (topics r) [])) * 5)%Z)%Q.

Definition language_multipliers : dict Q :=
[("JavaScript", 1.2); ("Python", 1.3); ("TypeScript", 1.1);
 ("Go", 1.0); ("Rust", 1.4); ("Swift", 0.9); ("Kotlin", 0.8);
 ("Java", 1.1); ("C++", 1.0); ("C#", 0.9); ("PHP", 0.8)]%Q.

(** [language_multipliers.get(repo.get('language'), 1.0)] *)
Definition language_boost (r : repo) : Q :=
match language r with
| Some l => get (lookup language_multipliers l) 1.0%Q
| None => 1.0%Q
end.

Definition calculate_interest_score (r : repo) : M scored :=
let base_popularity := base_popularity r in
recency_multiplier <- recency_multiplier r ;;
let activity_score := activity_score r in
let language_boost := language_boost r in
let final_score :=
  ((base_popularity + activity_score) * recency_multiplier * language_boost)%Q in
let reasoning :=
  "Pop: " ++ format_f 1 base_popularity ++
  ", Activity: " ++ format_f 1 activity_score ++
  ", Recency: " ++ format_f 2 recency_multiplier ++
  ", Lang: " ++ format_f 1 language_boost in
ret {| sr_repo := r; score := final_score; reasoning := reasoning |}.

Definition queries (date_threshold : string) : dict string :=
[("newly_created", "created:>" ++ date_threshold);
 ("recently_active", "pushed:>" ++ date_threshold ++ " stars:>10");
 ("hot_topics", "good-first-issues:>0 created:>" ++ date_threshold);
 ("ai_ml_trending", "topic:machine-learning created:>" ++ date_threshold);
 ("web_dev_trending", "topic:react created:>" ++ date_threshold);
 ("devops_trending", "topic:docker created:>" ++ date_threshold);
 ("mobile_trending", "topic:android created:>" ++ date_threshold);
 ("breaking_out", "stars:100..1000 created:>" ++ date_threshold);
 ("hidden_gems", "stars:10..100 forks:>5 created:>" ++ date_threshold)].

(** The [for repo in repos] loop, appending to [scored_repos]. *)
Fixpoint score_each (repos : list repo) (scored_repos : list scored)
  : M (list scored) :=
match repos with
| [] => ret scored_repos
| r :: rest =>
    scored_repo <- calculate_interest_score r ;;
    score_each rest (scored_repos ++ [scored_repo])%list
end.

Definition scan_trending_by_category (category : string) (days_back : Z)
  : M (list scored) :=
now <- datetime_now ;;
let date_threshold := strftime (now - timedelta_of_days days_back) in
let queries := queries date_threshold in
if negb (contains queries category) then
  st_error (UnknownCategory category) ;;;
  ret []
else
  query <- subscript (lookup queries category) category ;;
  repos <- search_repositories query "stars" 30 ;;
  scored_repos <- score_each repos [] ;;
  ret (sorted score true scored_repos).
End Scanner.

Section ScannerState.
Context {P : Platform} {Str : StrMethods} {Api : RateLimitApi}.

(** [__init__]; [self.token] is stored and never read, it is left out. *)
Definition __init__ (github_token : option string) : M unit :=
  fun s =>
    let headers := [("Accept", "application/vnd.github.v3+json")] in
    let headers :=
      match github_token with
      | Some token =>
          if truthy token && truthy (strip token)
          then (headers ++ [("Authorization", ("token " ++ strip token)%string)])%list
          else headers
      | None => headers
      end in
    (Return tt,
     {| rate_limit_remaining := 60; headers := headers; ticks := ticks s;
        sent := sent s; shown := shown s |}).

(** [data['rate']['remaining']] *)
Definition rate_remaining (response : response) (data : json) : M Z :=
  match data with
  | JOther => raise TypeError
  | JObject _ =>
      match rate_of response with
      | NoRate => raise (KeyError "rate")
      | RateNotObject => raise TypeError
      | NoRemaining => raise (KeyError "remaining")
      | Remaining n => ret n
      end
  end.

Definition check_rate_limit : M (bool * rate_limit_report) :=
  try_except
    (hdrs <- get_headers ;;
     response <- requests_get {| url := GITHUB_API_BASE ++ "/rate_limit";
                                 req_headers := Some hdrs; params := [];
                                 timeout := None |} ;;
     if (status_code response =? 200)%Z then
       data <- response_json response ;;
       remaining <- rate_remaining response data ;;
       set_rate_limit_remaining remaining ;;;
       ret (true, RateLimitData data)
     else
       ret (false, RateLimitCheckFailed (status_code response)))
    (fun e => ret (false, CouldNotCheckRateLimit e)).
End ScannerState.

Section ContentHelpers.
Context {P : Platform} {Str : StrMethods}.

Definition determine_content_type (repo : repo_object) : M content_type :=
  stars <- item (o_stargazers_count repo) "stargazers_count" ;;
  now <- datetime_now ;;
  created_at <- item (o_created_at repo) "created_at" ;;
  created_at <- not_none created_at TypeError ;;
  created <- datetime_strptime created_at ;;
  let age_days := days (now - created) in
  stars <- not_none stars TypeError ;;
  if (10000 <? stars)%Z then ret PopularRepositorySpotlight
  else if ((age_days <? 30)%Z && (100 <? stars)%Z)%bool then ret RisingStarAnalysis
  else
    hidden <- (if (stars <? 1000)%Z then
                 forks <- not_none (get_item (o_forks_count repo) 0%Z) TypeError ;;
                 ret (50 <? forks)%Z
               else ret false) ;;
    if hidden : bool then ret HiddenGemDiscovery
    else
      description <- not_none (get_item (o_description repo) "") AttributeError ;;
      ai <- (if str_contains "ai" (lower description) then ret true
             else
               topics <- not_none (get_item (o_topics repo) []) TypeError ;;
               ret (mem "machine-learning" topics)) ;;
      if ai : bool then ret AIToolReview else ret RepositoryDeepDive.

Definition generate_video_tags (repo : repo_object) : M (list string) :=
  let base_tags := ["github"; "programming"; "coding"; "opensource"; "developer"] in
  let base_tags :=
    match get_item_none (o_language repo) with
    | Some language =>
        if truthy language then (base_tags ++ [lower language])%list
        else base_tags
    | None => base_tags
    end in
  topics <- not_none (get_item (o_topics repo) []) TypeError ;;
  ret (fold_left (fun tags topic => (tags ++ [topic])%list) (firstn 5 topics)
                 base_tags).

Definition get_target_audience (repo : repo_object) : M string :=
  language <- not_none (get_item (o_language repo) "") AttributeError ;;
  let language := lower language in
  topics <- not_none (get_item (o_topics repo) []) TypeError ;;
  let topics := map lower topics in
  if (mem "machine-learning" topics || mem "ai" topics)%bool then
    ret "AI/ML Engineers, Data Scientists"
  else if mem language ["javascript"; "typescript"; "react"] then
    ret "Frontend Developers, Full-stack Engineers"
  else if mem language ["python"] then
    ret "Python Developers, Backend Engineers"
  else if (mem "devops" topics || mem language ["dockerfile"; "kubernetes"])%bool then
    ret "DevOps Engineers, System Administrators"
  else
    ret "General Developers, Programming Enthusiasts".

Definition get_optimal_upload_time (repo : repo_object) : M string :=
  topics <- not_none (get_item (o_topics repo) []) TypeError ;;
  let topics := map lower topics in
  if existsb (fun topic => mem topic ["ai"; "machine-learning"; "data-science"])
             topics then
    ret "Tuesday 10 AM PST (high engagement from tech professionals)"
  else if existsb (fun topic => mem topic ["web"; "frontend"; "react"; "javascript"])
                  topics then
    ret "Wednesday 9 AM PST (web developers active)"
  else
    ret "Tuesday-Thursday 9-11 AM PST (general developer audience)".
End ContentHelpers.

End Functions.
(** ** src/test.py: the second copy of [GitHubTrendingScanner] *)
Module Test.
Section Scanner.
Context {P : Platform}.

Definition GITHUB_API_BASE : string := "https://api.github.com".

Definition search_repositories (query : string) (sort : string)
  (per_page : Z) : M (list repo) :=
remaining <- get_rate_limit_remaining ;;
if (remaining <=? 5)%Z then
  st_warning RateLimitLow ;;;
  ret []
else
  let url := GITHUB_API_BASE ++ "/search/repositories" in
  let params := [("q", PStr query); ("sort", PStr sort);
                 ("order", PStr "desc"); ("per_page", PInt per_page)] in
  try_except
    (hdrs <- get_headers ;;
     response <- requests_get {| url := url; req_headers := Some hdrs;
                                 params := params; timeout := Some 10 |} ;;
     if (status_code response =? 200)%Z then
       remaining <- get_rate_limit_remaining ;;
       set_rate_limit_remaining (remaining - 1) ;;;
       data <- response_json response ;;
       match data with
       | JObject items => ret (get items [])
       | JOther => raise AttributeError
       end
     else if (status_code response =? 403)%Z then
       st_error RateLimitExceeded ;;;
       ret []
     else if (status_code response =? 422)%Z then
       st_error (InvalidSearchQuery query) ;;;
       ret []
     else
       st_error (GitHubApiError (status_code response)
                                (substring 0 200 (text response))) ;;;
       ret [])
    (fun e =>
       match e with
       | Timeout => st_error RequestTimedOut ;;; ret []
       | _ => st_error (ErrorFetching e) ;;; ret []
       end).

Definition base_popularity (r : repo) : Q :=
(inject_Z (get (stargazers_count r) 0%Z) * 1.0 +
 inject_Z (get (forks_count r) 0%Z) * 2.0 +
 inject_Z (get (watchers_count r) 0%Z) * 1.5)%Q.

(** The [try] block of lines 105-110; the bare [except] catches the
  KeyError of a missing key and the ValueError of [strptime] alike. *)
Definition recency_multiplier (r : repo) : M Q :=
try_except
  (field <- subscript (created_at r) "created_at" ;;
   created_date <- datetime_strptime field ;;
   now <- datetime_now ;;
   let days_old := days (now - created_date) in
   ret (py_max 0.1 (1.0 - (inject_Z days_old / 365)))%Q)
  (fun _ => ret 0.5%Q).

Definition activity_score (r : repo) : Q :=
(inject_Z (get (open_issues_count r) 0%Z) * 0.1 +
 (if get (has_wiki r) false then 10 else 0) +
 inject_Z (Z.of_nat (List.length (get (topics r) [])) * 5)%Z)%Q.

Definition language_multipliers : dict Q :=
[("JavaScript", 1.2); ("Python", 1.3); ("TypeScript", 1.1);
 ("Go", 1.0); ("Rust", 1.4); ("Swift", 0.9); ("Kotlin", 0.8);
 ("Java", 1.1); ("C++", 1.0); ("C#", 0.9); ("PHP", 0.8)]%Q.

(** [language_multipliers.get(repo.get('language'), 1.0)] *)
Definition language_boost (r : repo) : Q :=
match language r with
| Some l => get (lookup language_multipliers l) 1.0%Q
| None => 1.0%Q
end.

Definition calculate_interest_score (r : repo) : M scored :=
let base_popularity := base_popularity r in
recency_multiplier <- recency_multiplier r ;;
let activity_score := activity_score r in
let language_boost := language_boost r in
let final_score :=
  ((base_popularity + activity_score) * recency_multiplier * language_boost)%Q in
let reasoning :=
  "Pop: " ++ format_f 1 base_popularity ++
  ", Activity: " ++ format_f 1 activity_score ++
  ", Recency: " ++ format_f 2 recency_multiplier ++
  ", Lang: " ++ format_f 1 language_boost in
ret {| sr_repo := r; score := final_score; reasoning := reasoning |}.

Definition queries (date_threshold : string) : dict string :=
[("newly_created", "created:>" ++ date_threshold);
 ("recently_active", "pushed:>" ++ date_threshold ++ " stars:>10");
 ("hot_topics", "good-first-issues:>0 created:>" ++ date_threshold);
 ("ai_ml_trending", "topic:machine-learning created:>" ++ date_threshold);
 ("web_dev_trending", "topic:react created:>" ++ date_threshold);
 ("devops_trending", "topic:docker created:>" ++ date_threshold);
 ("mobile_trending", "topic:android created:>" ++ date_threshold);
 ("breaking_out", "stars:100..1000 created:>" ++ date_threshold);
 ("hidden_gems", "stars:10..100 forks:>5 created:>" ++ date_threshold)].

(** The [for repo in repos] loop, appending to [scored_repos]. *)
Fixpoint score_each (repos : list repo) (scored_repos : list scored)
  : M (list scored) :=
match repos with
| [] => ret scored_repos
| r :: rest =>
    scored_repo <- calculate_interest_score r ;;
    score_each rest (scored_repos ++ [scored_repo])%list
end.

Definition scan_trending_by_category (category : string) (days_back : Z)
  : M (list scored) :=
now <- datetime_now ;;
let date_threshold := strftime (now - timedelta_of_days days_back) in
let queries := queries date_threshold in
if negb (contains queries category) then
  st_error (UnknownCategory category) ;;;
  ret []
else
  query <- subscript (lookup queries category) category ;;
  repos <- search_repositories query "stars" 30 ;;
  scored_repos <- score_each repos [] ;;
  ret (sorted score true scored_repos).
End Scanner.
End Test.

(** ** src/main.py: [get_repos] *)
Module Main.
Section GetRepos.
Context {P : Platform}.

Definition get_repos (language sort_by order : string) (per_page : Z)
  : M (list repo) :=
let url := "https://api.github.com/search/repositories" in
let params := [("q", PStr ("language:" ++ language)); ("sort", PStr sort_by);
               ("order", PStr order); ("per_page", PInt per_page)] in
response <- requests_get {| url := url; req_headers := None;
                            params := params; timeout := None |} ;;
raise_for_status response ;;;
data <- response_json response ;;
match data with
| JObject items => subscript items "items"
| JOther => raise TypeError
end.
End GetRepos.
End Main.

(** ** src/functions.py: the scanner on the values CPython computes

    [Module Functions] reads the scanner with exact arithmetic, dates
    without bounds and an [items] that is a list when it is there.  Here
    the same methods are read with what the interpreter has in their
    place: scores are floats, with the conversion of an [int] that can
    fail; the date threshold lies in [datetime]'s range or the subtraction
    fails; [items] can be [null], and the search then returns [None]. *)
Module Cpython.

(** The dict returned by [calculate_interest_score], with the type of its
    score. *)
Record scored (number : Type) : Type := {
  sr_repo : repo;
  score : number;
  reasoning : string
}.
Arguments sr_repo {number} _.
Arguments score {number} _.
Arguments reasoning {number} _.

Section Scanner.
Context {P : Platform} {F : FloatArith} {J : RawJson}.

(** [search_repositories]; [None] is Python's [None]. *)
Definition search_repositories (query : string) (sort : string)
  (per_page : Z) : M (option (list repo)) :=
remaining <- get_rate_limit_remaining ;;
if (remaining <=? 5)%Z then
  st_warning RateLimitLow ;;;
  ret (Some [])
else
  let url := Functions.GITHUB_API_BASE ++ "/search/repositories" in
  let params := [("q", PStr query); ("sort", PStr sort);
                 ("order", PStr "desc"); ("per_page", PInt per_page)] in
  try_except
    (hdrs <- get_headers ;;
     response <- requests_get {| url := url; req_headers := Some hdrs;
                                 params := params; timeout := Some 10 |} ;;
     if (status_code response =? 200)%Z then
       remaining <- get_rate_limit_remaining ;;
       set_rate_limit_remaining (remaining - 1) ;;;
       data <- response_json response ;;
       match data with
       | JObject items =>
           if items_null response then ret None
           else ret (Some (get items []))
       | JOther => raise AttributeError
       end
     else if (status_code response =? 403)%Z then
       st_error RateLimitExceeded ;;;
       ret (Some [])
     else if (status_code response =? 422)%Z then
       st_error (InvalidSearchQuery query) ;;;
       ret (Some [])
     else
       st_error (GitHubApiError (status_code response)
                                (substring 0 200 (text response))) ;;;
       ret (Some []))
    (fun e =>
       match e with
       | Timeout => st_error RequestTimedOut ;;; ret (Some [])
       | _ => st_error (ErrorFetching e) ;;; ret (Some [])
       end).

(** [n * x] for an [int] [n] and a float [x] *)
Definition int_times (n : Z) (x : float) : M float :=
match fl_of_int n with
| Some f => ret (fl_mul f x)
| None => raise OverflowError
end.

(** [x + n] for a float [x] and an [int] [n] *)
Definition plus_int (x : float) (n : Z) : M float :=
match fl_of_int n with
| Some f => ret (fl_add x f)
| None => raise OverflowError
end.

(** [a / b] on two [int]s *)
Definition int_div (a : Z) (b : positive) : M float :=
match fl_int_div a b with
| Some f => ret f
| None => raise OverflowError
end.

Definition base_popularity (r : repo) : M float :=
stars <- int_times (get (stargazers_count r) 0%Z) (fl_lit 1.0) ;;
forks <- int_times (get (forks_count r) 0%Z) (fl_lit 2.0) ;;
watchers <- int_times (get (watchers_count r) 0%Z) (fl_lit 1.5) ;;
ret (fl_add (fl_add stars forks) watchers).

(** The [try] block of lines 117-122; the bare [except] also catches the
  OverflowError of the division. *)
Definition recency_multiplier (r : repo) : M float :=
try_except
  (field <- subscript (created_at r) "created_at" ;;
   created_date <- datetime_strptime field ;;
   now <- datetime_now ;;
   let days_old := days (now - created_date) in
   quotient <- int_div days_old 365 ;;
   ret (fl_max (fl_lit 0.1) (fl_sub (fl_lit 1.0) quotient)))
  (fun _ => ret (fl_lit 0.5)).

Definition activity_score (r : repo) : M float :=
issues <- int_times (get (open_issues_count r) 0%Z) (fl_lit 0.1) ;;
with_wiki <- plus_int issues (if get (has_wiki r) false then 10 else 0)%Z ;;
plus_int with_wiki (Z.of_nat (List.length (get (topics r) [])) * 5)%Z.

(** [language_multipliers.get(repo.get('language'), 1.0)] *)
Definition language_boost (r : repo) : float :=
fl_lit (Functions.language_boost r).

Definition calculate_interest_score (r : repo) : M (scored float) :=
base_popularity <- base_popularity r ;;
recency_multiplier <- recency_multiplier r ;;
activity_score <- activity_score r ;;
let language_boost := language_boost r in
let final_score :=
  fl_mul (fl_mul (fl_add base_popularity activity_score) recency_multiplier)
         language_boost in
let reasoning :=
  "Pop: " ++ fl_format 1 base_popularity ++
  ", Activity: " ++ fl_format 1 activity_score ++
  ", Recency: " ++ fl_format 2 recency_multiplier ++
  ", Lang: " ++ fl_format 1 language_boost in
ret {| sr_repo := r; score := final_score; reasoning := reasoning |}.

(** The [for repo in repos] loop, appending to [scored_repos]. *)
Fixpoint score_each (repos : list repo) (scored_repos : list (scored float))
  : M (list (scored float)) :=
match repos with
| [] => ret scored_repos
| r :: rest =>
    scored_repo <- calculate_interest_score r ;;
    score_each rest (scored_repos ++ [scored_repo])%list
end.

(** [x['score'] < y['score']], the comparison the sort makes. *)
Definition score_ltb (x y : scored float) : bool :=
fl_ltb (score x) (score y).

Definition scan_trending_by_category (category : string) (days_back : Z)
  : M (list (scored float)) :=
now <- datetime_now ;;
delta <- timedelta_days days_back ;;
threshold <- datetime_minus now delta ;;
let date_threshold := strftime threshold in
let queries := Functions.queries date_threshold in
if negb (contains queries category) then
  st_error (UnknownCategory category) ;;;
  ret []
else
  query <- subscript (lookup queries category) category ;;
  repos <- search_repositories query "stars" 30 ;;
  (* [for repo in repos]: [None] is not iterable *)
  repos <- not_none repos TypeError ;;
  scored_repos <- score_each repos [] ;;
  ret (sorted_by score_ltb true scored_repos).
End Scanner.
End Cpython.

(** ** IEEE 754 binary64

    A float is infinite, NaN, or finite with its exact rational value; every
    operation rounds the exact result to the nearest float, ties to the
    even significand.  The sign of zero is not kept: no operation of the
    scanner can tell the two zeros apart but [fl_format], and none produces
    a negative zero from the values it is given. *)
Module Binary64.

Inductive binary64 : Type :=
| Finite (q : Q)
| Infinity (negative : bool)
| NaN.

Definition pow2 (e : Z) : Q :=
  if (0 <=? e)%Z then inject_Z (2 ^ e) else (1 / inject_Z (2 ^ (- e)))%Q.

(** The greatest [e] with [2^e <= q], for a positive [q]. *)
Definition ilog2 (q : Q) : Z :=
  let e := (Z.log2 (Qnum q) - Z.log2 (Z.pos (Qden q)))%Z in
  if Qle_bool (pow2 e) q then e else (e - 1)%Z.

(** The float nearest to [q]: 53 significant bits, exponents from -1022,
    subnormals below, infinity from [2^1024] on. *)
Definition round64 (q : Q) : binary64 :=
  if Qeq_bool q 0 then Finite 0
  else
    let a := Qabs q in
    let e := Z.max (ilog2 a) (-1022) in
    let ulp := pow2 (e - 52) in
    let v := (inject_Z (round_half_even (a / ulp)) * ulp)%Q in
    if Qle_bool (pow2 1024) v then Infinity (Qltb q 0)
    else Finite (Qred (if Qltb q 0 then - v else v)).

Definition finite (x : binary64) : option binary64 :=
  match x with
  | Finite _ => Some x
  | _ => None
  end.

Definition of_int (n : Z) : option binary64 := finite (round64 (inject_Z n)).

Definition int_div (a : Z) (b : positive) : option binary64 :=
  finite (round64 (inject_Z a / inject_Z (Z.pos b))).

Definition opp (x : binary64) : binary64 :=
  match x with
  | Finite q => Finite (Qred (- q))
  | Infinity negative => Infinity (negb negative)
  | NaN => NaN
  end.

Definition add (x y : binary64) : binary64 :=
  match x, y with
  | NaN, _ | _, NaN => NaN
  | Finite a, Finite b => round64 (a + b)
  | Infinity s, Finite _ | Finite _, Infinity s => Infinity s
  | Infinity s, Infinity t => if Bool.eqb s t then Infinity s else NaN
  end.

Definition sub (x y : binary64) : binary64 := add x (opp y).

Definition mul (x y : binary64) : binary64 :=
  match x, y with
  | NaN, _ | _, NaN => NaN
  | Finite a, Finite b => round64 (a * b)
  | Infinity s, Finite b | Finite b, Infinity s =>
      if Qeq_bool b 0 then NaN else Infinity (xorb s (Qltb b 0))
  | Infinity s, Infinity t => Infinity (xorb s t)
  end.

Definition ltb (x y : binary64) : bool :=
  match x, y with
  | NaN, _ | _, NaN => false
  | Finite a, Finite b => Qltb a b
  | Finite _, Infinity negative => negb negative
  | Infinity negative, Finite _ => negative
  | Infinity s, Infinity t => (s && negb t)%bool
  end.

Definition is_nan (x : binary64) : bool :=
  match x with
  | NaN => true
  | _ => false
  end.

Definition format (k : nat) (x : binary64) : string :=
  match x with
  | Finite q => format_f k q
  | Infinity false => "inf"
  | Infinity true => "-inf"
  | NaN => "nan"
  end.

Definition arith : FloatArith :=
  {| float := binary64; fl_lit := round64; fl_of_int := of_int;
     fl_add := add; fl_sub := sub; fl_mul := mul; fl_int_div := int_div;
     fl_ltb := ltb; fl_is_nan := is_nan; fl_format := format |}.
End Binary64.

(** ** Exact arithmetic

    Floats read as the rationals they stand for, without rounding, overflow
    or NaN: the arithmetic of [Module Functions]. *)
Module Exact.
Definition arith : FloatArith :=
  {| float := Q; fl_lit := fun q => q;
     fl_of_int := fun n => Some (inject_Z n);
     fl_add := Qplus; fl_sub := Qminus; fl_mul := Qmult;
     fl_int_div := fun a b => Some (inject_Z a / inject_Z (Z.pos b))%Q;
     fl_ltb := Qltb; fl_is_nan := fun _ => false; fl_format := format_f |}.
End Exact.

(** ** The scoring algorithm as the specification words it

    [whole_days] is the rounding of the age to whole days.  The
    specification says the fraction is truncated ([days_truncated]);
    [days_floored] rounds down instead. *)
Module Spec.
Definition days_truncated (now created : datetime) : Z :=
  Z.quot (now - created) US_PER_DAY.

Definition days_floored (now created : datetime) : Z :=
  Z.div (now - created) US_PER_DAY.

Definition stars (r : repo) : Z := get (stargazers_count r) 0.
Definition forks (r : repo) : Z := get (forks_count r) 0.
Definition watchers (r : repo) : Z := get (watchers_count r) 0.
Definition open_issues (r : repo) : Z := get (open_issues_count r) 0.
Definition topic_count (r : repo) : Z :=
  Z.of_nat (List.length (get (topics r) [])).

Definition base_popularity (r : repo) : Q :=
  (inject_Z (stars r) * 1.0 + inject_Z (forks r) * 2.0
   + inject_Z (watchers r) * 1.5)%Q.

Definition activity_score (r : repo) : Q :=
  (inject_Z (open_issues r) * 0.1
   + (if get (has_wiki r) false then 10 else 0)
   + inject_Z (topic_count r) * 5)%Q.

Definition language_boost (r : repo) : Q :=
  match language r with
  | None => 1.0
  | Some l =>
      if String.eqb l "JavaScript" then 1.2
      else if String.eqb l "Python" then 1.3
      else if String.eqb l "TypeScript" then 1.1
      else if String.eqb l "Go" then 1.0
      else if String.eqb l "Rust" then 1.4
      else if String.eqb l "Swift" then 0.9
      else if String.eqb l "Kotlin" then 0.8
      else if String.eqb l "Java" then 1.1
      else if String.eqb l "C++" then 1.0
      else if String.eqb l "C#" then 0.9
      else if String.eqb l "PHP" then 0.8
      else 1.0
  end%Q.

Section Algorithm.
Context {P : Platform}.
Variable whole_days : datetime -> datetime -> Z.

Definition recency_mult (now : datetime) (r : repo) : Q :=
  match created_at r with
  | None => 0.5
  | Some field =>
      match strptime field with
      | None => 0.5
      | Some created => Qmax 0.1 (1.0 - inject_Z (whole_days now created) / 365)
      end
  end%Q.

Definition final_score (now : datetime) (r : repo) : Q :=
  ((base_popularity r + activity_score r) * recency_mult now r
   * language_boost r)%Q.
End Algorithm.
End Spec.

(** ** A concrete platform

    Timestamps in GitHub's canonical form [YYYY-MM-DDTHH:MM:SSZ], counted
    from 1970-01-01T00:00:00; on these strings [strptime_iso] is what
    [datetime.strptime] returns. *)
Module Demo.
Local Open Scope Z_scope.

Definition days_from_civil (y m d : Z) : Z :=
  let y' := if m <=? 2 then y - 1 else y in
  let era := y' / 400 in
  let yoe := y' - era * 400 in
  let mp := (m + 9) mod 12 in
  let doy := (153 * mp + 2) / 5 + d - 1 in
  let doe := yoe * 365 + yoe / 4 - yoe / 100 + doy in
  era * 146097 + doe - 719468.

Definition civil_from_days (z : Z) : Z * Z * Z :=
  let z := z + 719468 in
  let era := z / 146097 in
  let doe := z - era * 146097 in
  let yoe := (doe - doe / 1460 + doe / 36524 - doe / 146096) / 365 in
  let doy := doe - (365 * yoe + yoe / 4 - yoe / 100) in
  let mp := (5 * doy + 2) / 153 in
  let d := doy - (153 * mp + 2) / 5 + 1 in
  let m := if mp <? 10 then mp + 3 else mp - 9 in
  ((if m <=? 2 then yoe + era * 400 + 1 else yoe + era * 400), m, d).

Definition digit (c : ascii) : option Z :=
  let n := Z.of_nat (nat_of_ascii c) - 48 in
  if (0 <=? n) && (n <=? 9) then Some n else None.

Fixpoint number (acc : Z) (cs : list ascii) : option Z :=
  match cs with
  | [] => Some acc
  | c :: rest =>
      match digit c with
      | Some n => number (10 * acc + n) rest
      | None => None
      end
  end.

Definition make_datetime (y m d hh mm ss : Z) : option datetime :=
  let day := days_from_civil y m d in
  let valid :=
    (1 <=? y) && (y <=? 9999) && (1 <=? m) && (m <=? 12)
    && (let '(y', m', d') := civil_from_days day in
        (y' =? y) && (m' =? m) && (d' =? d))
    && (hh <? 24) && (mm <? 60) && (ss <? 60) in
  if valid then Some ((day * 86400 + hh * 3600 + mm * 60 + ss) * 1000000)
  else None.

Definition strptime_iso (s : string) : option datetime :=
  match list_ascii_of_string s with
  | [y1; y2; y3; y4; "-"; m1; m2; "-"; d1; d2; "T";
     h1; h2; ":"; n1; n2; ":"; s1; s2; "Z"]%char =>
      match number 0 [y1; y2; y3; y4], number 0 [m1; m2], number 0 [d1; d2],
            number 0 [h1; h2], number 0 [n1; n2], number 0 [s1; s2] with
      | Some y, Some m, Some d, Some hh, Some mm, Some ss =>
          make_datetime y m d hh mm ss
      | _, _, _, _, _, _ => None
      end
  | _ => None
  end.

Definition strftime_ymd (t : datetime) : string :=
  let '(y, m, d) := civil_from_days (t / US_PER_DAY) in
  (zfill 4 (str_of_int y) ++ "-" ++ zfill 2 (str_of_int m) ++ "-"
   ++ zfill 2 (str_of_int d))%string.

(** A platform whose clock stands at [now] and whose network always ends
    in [o]. *)
Definition platform (now : datetime) (o : outcome) : Platform :=
  {| strptime := strptime_iso; strftime := strftime_ymd;
     clock := fun _ => now; network := fun _ _ => o |}.

Definition at_time (s : string) : datetime := get (strptime_iso s) 0.

Definition scanner (remaining : Z) : state :=
  {| rate_limit_remaining := remaining;
     headers := [("Accept", "application/vnd.github.v3+json")];
     ticks := 0; sent := []; shown := [] |}.

Definition a_repo (name : string) (stars : Z) (created : string) : repo :=
  {| full_name := Some name; stargazers_count := Some stars;
     forks_count := None; watchers_count := None;
     created_at := Some created; language := None; topics := None;
     has_wiki := None; open_issues_count := None |}.

Definition ok (items : list repo) : outcome :=
  Responded {| status_code := 200; text := "";
               body := Some (JObject (Some items)) |}.

Definition status (code : Z) : outcome :=
  Responded {| status_code := code; text := "{}";
               body := Some (JObject None) |}.

(** [str.lower] and [str.strip] on ASCII text. *)
Definition lower_char (c : ascii) : ascii :=
  let n := nat_of_ascii c in
  if ((65 <=? n)%nat && (n <=? 90)%nat)%bool then ascii_of_nat (n + 32) else c.

Fixpoint lower_ascii (s : string) : string :=
  match s with
  | EmptyString => EmptyString
  | String c rest => String (lower_char c) (lower_ascii rest)
  end.

Definition is_space (c : ascii) : bool :=
  let n := nat_of_ascii c in
  ((n =? 32)%nat || ((9 <=? n)%nat && (n <=? 13)%nat))%bool.

Fixpoint lstrip (cs : list ascii) : list ascii :=
  match cs with
  | [] => []
  | c :: rest => if is_space c then lstrip rest else cs
  end.

Definition strip_ascii (s : string) : string :=
  string_of_list_ascii
    (rev (lstrip (rev (lstrip (list_ascii_of_string s))))).

Definition str_methods : StrMethods :=
  {| lower := lower_ascii; strip := strip_ascii |}.

(** A quota-status endpoint whose bodies all hold the lookup [l]. *)
Definition rate_api (l : rate_lookup) : RateLimitApi :=
  {| rate_of := fun _ => l |}.

Definition a_repo_in (language name : string) (stars : Z) (created : string)
  : repo :=
  {| full_name := Some name; stargazers_count := Some stars;
     forks_count := None; watchers_count := None;
     created_at := Some created; language := Some language; topics := None;
     has_wiki := None; open_issues_count := None |}.

(** Bodies in which [items] is never [null], and bodies in which it always
    is. *)
Definition no_null : RawJson := {| items_null := fun _ => false |}.
Definition null_items : RawJson := {| items_null := fun _ => true |}.

Definition an_object (stars : Z) (created : string)
    (language description : field string) (topics : field (list string))
  : repo_object :=
  {| o_stargazers_count := Present stars; o_forks_count := Absent;
     o_created_at := Present created; o_language := language;
     o_description := description; o_topics := topics |}.
End Demo.

(** ** Vocabulary of the statements *)

(** The nine category names. *)
Definition CATEGORIES : list string :=
  ["newly_created"; "recently_active"; "hot_topics"; "ai_ml_trending";
   "web_dev_trending"; "devops_trending"; "mobile_trending"; "breaking_out";
   "hidden_gems"].

(** The request [search_repositories] sends. *)
Definition search_request (hdrs : dict string) (query sort : string)
    (per_page : Z) : request :=
  {| url := "https://api.github.com/search/repositories";
     req_headers := Some hdrs;
     params := [("q", PStr query); ("sort", PStr sort);
                ("order", PStr "desc"); ("per_page", PInt per_page)];
     timeout := Some 10 |}.

(** The request [get_repos] sends. *)
Definition get_repos_request (language sort_by order : string)
    (per_page : Z) : request :=
  {| url := "https://api.github.com/search/repositories";
     req_headers := None;
     params := [("q", PStr ("language:" ++ language)); ("sort", PStr sort_by);
                ("order", PStr order); ("per_page", PInt per_page)];
     timeout := None |}.

(** The [items] array of a response body, empty when there is none. *)
Definition items_of (r : response) : list repo :=
  match body r with
  | Some (JObject (Some items)) => items
  | _ => []
  end.

(** A status for which [raise_for_status] raises. *)
Definition error_status (code : Z) : Prop := 400 <= code < 600.






(** A caller's searches, issued one after the other on the same scanner. *)
Fixpoint searches {P : Platform} (calls : list (string * string * Z))
  : M (list (list repo)) :=
  match calls with
  | [] => ret []
  | (query, sort, per_page) :: rest =>
      out <- Functions.search_repositories query sort per_page ;;
      outs <- searches rest ;;
      ret (out :: outs)
  end.

(** The searches that came back with records. *)
Definition with_results (outs : list (list repo)) : nat :=
  List.length (filter (fun out => negb (Nat.eqb (List.length out) 0)) outs).

(** The request [check_rate_limit] sends. *)
Definition rate_limit_request (hdrs : dict string) : request :=
  {| url := "https://api.github.com/rate_limit"; req_headers := Some hdrs;
     params := []; timeout := None |}.






(** The five tags every video gets. *)
Definition BASE_TAGS : list string :=
  ["github"; "programming"; "coding"; "opensource"; "developer"].

(** The first three branches of [determine_content_type] do not apply to
    [repo] at the instant [now]: its keys are there, the date parses, and
    it is neither popular, nor a rising star, nor a hidden gem. *)
Definition past_first_three {P : Platform} (repo : repo_object)
    (now : datetime) : Prop :=
  exists stars created_at created,
    o_stargazers_count repo = Present stars /\
    o_created_at repo = Present created_at /\
    strptime created_at = Some created /\
    stars <= 10000 /\
    (30 <= days (now - created) \/ stars <= 100) /\
    (1000 <= stars \/
     exists forks, get_item (o_forks_count repo) 0 = Some forks /\ forks <= 50).

(** [datetime] and [timedelta] can represent the date [days_back] days
    before [now]. *)
Definition representable (now : datetime) (days_back : Z) : Prop :=
  Z.abs days_back <= 999999999 /\
  datetime_min <= now - timedelta_of_days days_back <= datetime_max.

(** The search from state [s] ends in a failure: it is refused at the
    low-water mark, times out, fails on the network, is answered with a
    status other than 200, or with a body that is not a JSON object. *)
Definition search_fails {P : Platform} (query sort : string) (per_page : Z)
    (s : state) : Prop :=
  rate_limit_remaining s <= 5 \/
  match network (List.length (sent s))
                (search_request (headers s) query sort per_page) with
  | Responded r =>
      status_code r <> 200 \/ body r = None \/ body r = Some JOther
  | TimedOut | Failed _ => True
  end.





(** A scored entry of [Module Functions] as one of [Module Cpython] with
    exact arithmetic. *)
Definition exact_scored (sc : scored) : Cpython.scored Q :=
  {| Cpython.sr_repo := sr_repo sc; Cpython.score := score sc;
     Cpython.reasoning := reasoning sc |}.

(** * Properties *)

(** ** Comparisons on [Q] *)

Lemma Qltb_true (x y : Q) : Qltb x y = true <-> (x < y)%Q.
Proof.
  unfold Qltb. rewrite negb_true_iff. split; intro H.
  - apply Qnot_le_lt. intro Hle. apply Qle_bool_iff in Hle. congruence.
  - destruct (Qle_bool y x) eqn:E; [|reflexivity].
    apply Qle_bool_iff in E. exfalso. exact (Qlt_not_le _ _ H E).
Qed.

Lemma Qltb_false (x y : Q) : Qltb x y = false <-> (y <= x)%Q.
Proof.
  unfold Qltb. rewrite negb_false_iff. apply Qle_bool_iff.
Qed.

Lemma py_max_Qmax (a b : Q) : (py_max a b == Qmax a b)%Q.
Proof.
  unfold py_max. destruct (Qltb a b) eqn:E.
  - apply Qltb_true in E. symmetry. apply Q.max_r. apply Qlt_le_weak, E.
  - apply Qltb_false in E. symmetry. apply Q.max_l. exact E.
Qed.

Lemma py_max_lower (a b : Q) : (a <= py_max a b)%Q.
Proof.
  unfold py_max. destruct (Qltb a b) eqn:E.
  - apply Qltb_true in E. apply Qlt_le_weak, E.
  - apply Qle_refl.
Qed.


(** ** [sorted] sorts, permutes and is stable *)
Section SortedFacts.
Context {A : Type} (key : A -> Q).

Lemma insert_perm (x : A) (l : list A) : Permutation (insert key x l) (x :: l).
Proof.
  induction l as [|y ys IH]; simpl.
  - apply Permutation_refl.
  - destruct (Qltb (key y) (key x)).
    + eapply perm_trans; [apply perm_skip, IH | apply perm_swap].
    + apply Permutation_refl.
Qed.


Lemma insert_Forall (Q0 : A -> Prop) (x : A) (l : list A) :
  Q0 x -> Forall Q0 l -> Forall Q0 (insert key x l).
Proof.
  intros Hx Hl. eapply Permutation_Forall.
  - apply Permutation_sym, insert_perm.
  - constructor; assumption.
Qed.

Lemma insert_ascending (x : A) (l : list A) :
  StronglySorted (ascending key) l -> StronglySorted (ascending key) (insert key x l).
Proof.
  induction 1 as [|y ys Hs IH Hy]; simpl.
  - repeat constructor.
  - destruct (Qltb (key y) (key x)) eqn:E.
    + constructor; [exact IH|].
      apply insert_Forall; [|exact Hy].
      apply Qltb_true in E. apply Qlt_le_weak, E.
    + apply Qltb_false in E.
      constructor; [constructor; assumption|].
      constructor; [exact E|].
      eapply Forall_impl; [|exact Hy].
      intros z Hz. unfold ascending in *. eapply Qle_trans; eassumption.
Qed.

Lemma stable_sort_ascending (l : list A) :
  StronglySorted (ascending key) (stable_sort key l).
Proof.
  induction l as [|x xs IH]; simpl.
  - constructor.
  - apply insert_ascending, IH.
Qed.

Lemma with_key_insert (v : Q) (x : A) (l : list A) :
  with_key key v (insert key x l) = with_key key v (x :: l).
Proof.
  induction l as [|y ys IH]; [reflexivity|].
  simpl insert. destruct (Qltb (key y) (key x)) eqn:E; [|reflexivity].
  apply Qltb_true in E.
  unfold with_key in *. simpl in *. rewrite IH.
  destruct (Qeq_bool (key x) v) eqn:Ex; [|reflexivity].
  destruct (Qeq_bool (key y) v) eqn:Ey; [|reflexivity].
  apply Qeq_bool_iff in Ex, Ey. exfalso.
  rewrite Ex, Ey in E. exact (Qlt_irrefl _ E).
Qed.

Lemma with_key_stable_sort (v : Q) (l : list A) :
  with_key key v (stable_sort key l) = with_key key v l.
Proof.
  induction l as [|x xs IH]; [reflexivity|].
  simpl stable_sort. rewrite with_key_insert.
  unfold with_key in *. simpl. rewrite IH. reflexivity.
Qed.

Lemma StronglySorted_snoc (R : A -> A -> Prop) (l : list A) (x : A) :
  StronglySorted R l -> Forall (fun y => R y x) l ->
  StronglySorted R (l ++ [x]).
Proof.
  induction 1 as [|y ys Hs IH Hy]; intro Hall; simpl.
  - repeat constructor.
  - inversion Hall; subst. constructor.
    + apply IH. assumption.
    + apply Forall_app. split; [assumption | repeat constructor; assumption].
Qed.

Lemma rev_ascending_descending (l : list A) :
  StronglySorted (ascending key) l -> StronglySorted (descending key) (rev l).
Proof.
  induction 1 as [|y ys Hs IH Hy]; simpl.
  - constructor.
  - apply StronglySorted_snoc; [exact IH|].
    apply Forall_rev. exact Hy.
Qed.

Lemma sorted_reverse_descending (l : list A) :
  StronglySorted (descending key) (sorted key true l).
Proof.
  unfold sorted. apply rev_ascending_descending, stable_sort_ascending.
Qed.


Lemma sorted_reverse_stable (v : Q) (l : list A) :
  with_key key v (sorted key true l) = with_key key v l.
Proof.
  unfold sorted, with_key.
  rewrite filter_rev. fold (with_key key v (stable_sort key (rev l))).
  rewrite with_key_stable_sort. unfold with_key.
  rewrite filter_rev. apply rev_involutive.
Qed.
End SortedFacts.

(** ** Sorting by a comparison *)
Section SortedByFacts.
Context {A : Type} (lt : A -> A -> bool) (ok : A -> Prop).
Hypothesis lt_irrefl : forall x, lt x x = false.
Hypothesis lt_trans :
  forall x y z, lt x y = true -> lt y z = true -> lt x z = true.
Hypothesis lt_incomparable :
  forall x y z, ok x -> ok y -> ok z ->
                lt x y = false -> lt y z = false -> lt x z = false.










(** A class of elements no two of which are ordered keeps its order. *)
Section Stable.
Variable same : A -> bool.
Hypothesis same_tied :
  forall x y, ok x -> ok y -> same x = true -> same y = true -> lt x y = false.



End Stable.
End SortedByFacts.

(** ** The search client *)

Ltac run :=
  unfold bind, try_except, ret, raise, st_warning, st_error, st_show,
    get_rate_limit_remaining, set_rate_limit_remaining, get_headers,
    requests_get, response_json, raise_for_status, subscript,
    datetime_now, datetime_strptime; simpl.

(** What a call of [search_repositories] does, outcome by outcome. *)
Lemma search_repositories_run {P : Platform} (query sort : string)
    (per_page : Z) (s : state) :
  Functions.search_repositories query sort per_page s =
  if rate_limit_remaining s <=? 5 then (Return [], notify (StWarning RateLimitLow) s)
  else
    let rq := search_request (headers s) query sort per_page in
    let s1 := record_request rq s in
    match network (List.length (sent s)) rq with
    | Responded r =>
        if status_code r =? 200 then
          let s2 := with_remaining (rate_limit_remaining s - 1) s1 in
          match body r with
          | Some (JObject items) => (Return (get items []), s2)
          | Some JOther => (Return [], notify (StError (ErrorFetching AttributeError)) s2)
          | None => (Return [], notify (StError (ErrorFetching JSONDecodeError)) s2)
          end
        else if status_code r =? 403 then
          (Return [], notify (StError RateLimitExceeded) s1)
        else if status_code r =? 422 then
          (Return [], notify (StError (InvalidSearchQuery query)) s1)
        else
          (Return [], notify (StError (GitHubApiError (status_code r)
                                         (substring 0 200 (text r)))) s1)
    | TimedOut => (Return [], notify (StError RequestTimedOut) s1)
    | Failed msg =>
        (Return [], notify (StError (ErrorFetching (RequestException msg))) s1)
    end.
Proof.
  unfold Functions.search_repositories, search_request. run.
  destruct (rate_limit_remaining s <=? 5); [reflexivity|].
  unfold Functions.GITHUB_API_BASE. simpl.
  destruct (network _ _) as [r| |msg]; simpl; try reflexivity.
  destruct (status_code r =? 200); simpl.
  - destruct (body r) as [[items|]|]; reflexivity.
  - destruct (status_code r =? 403); simpl; [reflexivity|].
    destruct (status_code r =? 422); reflexivity.
Qed.

(** The copy in src/test.py is the same function. *)
Lemma search_repositories_copy {P : Platform} (query sort : string)
    (per_page : Z) (s : state) :
  Test.search_repositories query sort per_page s =
  Functions.search_repositories query sort per_page s.
Proof. reflexivity. Qed.

(** C4: at or below the low-water mark of 5 the search is refused: the
    result is empty, a low-quota warning is shown, no request is sent and
    the quota counter keeps its value. *)
Theorem search_refused_when_quota_low {P : Platform} (query sort : string)
    (per_page : Z) (s : state) :
  rate_limit_remaining s <= 5 ->
  exists s',
    Functions.search_repositories query sort per_page s = (Return [], s') /\
    sent s' = sent s /\
    rate_limit_remaining s' = rate_limit_remaining s /\
    shown s' = StWarning RateLimitLow :: shown s.
Proof.
  intro Hlow. rewrite search_repositories_run.
  apply Z.leb_le in Hlow. rewrite Hlow.
  eexists. repeat split; reflexivity.
Qed.

Lemma search_refused_when_quota_low_witness :
  exists s',
    @Functions.search_repositories (Demo.platform 0 (Demo.ok []))
      "language:python" "stars" 30 (Demo.scanner 5) = (Return [], s') /\
    sent s' = [] /\
    rate_limit_remaining s' = 5 /\
    shown s' = [StWarning RateLimitLow].
Proof.
  apply (@search_refused_when_quota_low (Demo.platform 0 (Demo.ok []))
           "language:python" "stars" 30 (Demo.scanner 5)).
  simpl. lia.
Defined.

(** C5: the quota counter goes down by one exactly when a request was made
    and answered with status 200, and then the [items] array of the body is
    returned (empty when there is none); on any other outcome the counter
    keeps its value and the result is empty. *)
Theorem search_quota_effect {P : Platform} (query sort : string)
    (per_page : Z) (s : state) :
  5 < rate_limit_remaining s ->
  let rq := search_request (headers s) query sort per_page in
  exists out s',
    Functions.search_repositories query sort per_page s = (Return out, s') /\
    sent s' = rq :: sent s /\
    match network (List.length (sent s)) rq with
    | Responded r =>
        if status_code r =? 200
        then rate_limit_remaining s' = rate_limit_remaining s - 1
             /\ out = items_of r
        else rate_limit_remaining s' = rate_limit_remaining s /\ out = []
    | TimedOut | Failed _ =>
        rate_limit_remaining s' = rate_limit_remaining s /\ out = []
    end.
Proof.
  intros Hq rq. rewrite search_repositories_run.
  apply Z.leb_gt in Hq. rewrite Hq. fold rq. cbv zeta.
  destruct (network _ rq) as [r| |msg].
  - destruct (status_code r =? 200).
    + unfold items_of.
      destruct (body r) as [[[items|]|]|];
        do 2 eexists; repeat split; reflexivity.
    + destruct (status_code r =? 403); [|destruct (status_code r =? 422)];
        do 2 eexists; repeat split; reflexivity.
  - do 2 eexists; repeat split; reflexivity.
  - do 2 eexists; repeat split; reflexivity.
Qed.

Lemma search_quota_effect_witness :
  exists out s',
    @Functions.search_repositories
      (Demo.platform 0 (Demo.ok [Demo.a_repo "a/b" 7 "2024-01-01T00:00:00Z"]))
      "language:python" "stars" 30 (Demo.scanner 60) = (Return out, s') /\
    sent s' = [search_request (headers (Demo.scanner 60)) "language:python" "stars" 30] /\
    rate_limit_remaining s' = 59 /\
    out = [Demo.a_repo "a/b" 7 "2024-01-01T00:00:00Z"].
Proof.
  apply (@search_quota_effect
           (Demo.platform 0 (Demo.ok [Demo.a_repo "a/b" 7 "2024-01-01T00:00:00Z"]))
           "language:python" "stars" 30 (Demo.scanner 60)).
  simpl. lia.
Defined.

(** ** The score engine *)

(** The [try] block reads the clock once when [created_at] parses and not at
    all otherwise. *)
Lemma recency_multiplier_run {P : Platform} (r : repo) (s : state) :
  Functions.recency_multiplier r s =
  match created_at r with
  | None => (Return 0.5%Q, s)
  | Some field =>
      match strptime field with
      | None => (Return 0.5%Q, s)
      | Some created =>
          (Return (py_max 0.1 (1.0 - inject_Z (days (clock (ticks s) - created)%Z) / 365))%Q,
           tick s)
      end
  end.
Proof.
  unfold Functions.recency_multiplier. run.
  destruct (created_at r) as [field|]; simpl; [|reflexivity].
  destruct (strptime field); reflexivity.
Qed.

Lemma recency_multiplier_total {P : Platform} (r : repo) (s : state) :
  exists m s',
    Functions.recency_multiplier r s = (Return m, s') /\
    (m == Spec.recency_mult Spec.days_floored (clock (ticks s)) r)%Q /\
    (0.1 <= m)%Q /\
    rate_limit_remaining s' = rate_limit_remaining s /\
    sent s' = sent s /\ shown s' = shown s.
Proof.
  rewrite recency_multiplier_run. unfold Spec.recency_mult.
  destruct (created_at r) as [field|].
  - destruct (strptime field) as [created|].
    + do 2 eexists. split; [reflexivity|]. split; [apply py_max_Qmax|].
      split; [apply py_max_lower|]. repeat split.
    + do 2 eexists. split; [reflexivity|]. split; [reflexivity|].
      split; [discriminate|]. repeat split.
  - do 2 eexists. split; [reflexivity|]. split; [reflexivity|].
    split; [discriminate|]. repeat split.
Qed.

Lemma calculate_interest_score_run {P : Platform} (r : repo) (s : state)
    (m : Q) (s' : state) :
  Functions.recency_multiplier r s = (Return m, s') ->
  Functions.calculate_interest_score r s =
    (Return {| sr_repo := r;
               score := ((Functions.base_popularity r + Functions.activity_score r)
                         * m * Functions.language_boost r)%Q;
               reasoning :=
                 "Pop: " ++ format_f 1 (Functions.base_popularity r) ++
                 ", Activity: " ++ format_f 1 (Functions.activity_score r) ++
                 ", Recency: " ++ format_f 2 m ++
                 ", Lang: " ++ format_f 1 (Functions.language_boost r) |}, s').
Proof.
  intro Hrun.
  unfold Functions.calculate_interest_score, bind. rewrite Hrun. reflexivity.
Qed.

Lemma language_boost_spec (r : repo) :
  Functions.language_boost r = Spec.language_boost r.
Proof.
  unfold Functions.language_boost, Spec.language_boost.
  destruct (language r) as [l|]; [|reflexivity].
  cbv beta iota zeta delta [Functions.language_multipliers lookup].
  repeat match goal with
         | |- context [String.eqb l ?k] =>
             rewrite (String.eqb_sym l k); destruct (String.eqb k l); [reflexivity|]
         end.
  reflexivity.
Qed.


Lemma base_popularity_spec (r : repo) :
  Functions.base_popularity r = Spec.base_popularity r.
Proof. reflexivity. Qed.

Lemma activity_score_spec (r : repo) :
  (Functions.activity_score r == Spec.activity_score r)%Q.
Proof.
  unfold Functions.activity_score, Spec.activity_score, Spec.open_issues,
    Spec.topic_count.
  rewrite inject_Z_mult. reflexivity.
Qed.

Lemma days_truncated_floored (now created : datetime) :
  created <= now ->
  Spec.days_truncated now created = Spec.days_floored now created.
Proof.
  intro H. unfold Spec.days_truncated, Spec.days_floored, US_PER_DAY.
  apply Z.quot_div_nonneg; lia.
Qed.



(** On a record that is not dated after the current instant the two
    roundings agree, and the score is the one the specification words. *)
Lemma calculate_interest_score_truncated_spec_past {P : Platform} (r : repo)
    (s : state) :
  (forall field created,
     created_at r = Some field -> strptime field = Some created ->
     created <= clock (ticks s)) ->
  exists sc s',
    Functions.calculate_interest_score r s = (Return sc, s') /\
    (score sc == Spec.final_score Spec.days_truncated (clock (ticks s)) r)%Q.
Proof.
  intro Hpast.
  destruct (recency_multiplier_total r s) as (m & s' & Hm & Heq & _).
  eexists _, s'. split; [exact (calculate_interest_score_run r s m s' Hm)|].
  simpl. unfold Spec.final_score.
  rewrite language_boost_spec, activity_score_spec, Heq.
  rewrite base_popularity_spec.
  unfold Spec.recency_mult.
  destruct (created_at r) as [field|]; [|reflexivity].
  destruct (strptime field) as [created|] eqn:Hparse; [|reflexivity].
  rewrite (days_truncated_floored _ _ (Hpast field created eq_refl Hparse)).
  reflexivity.
Qed.









(** ** The recency multiplier *)




Lemma recency_floor (d : Z) :
  329 <= d -> py_max 0.1 (1.0 - inject_Z d / 365)%Q = 0.1%Q.
Proof.
  intro H. unfold py_max.
  destruct (Qltb 0.1 (1.0 - inject_Z d / 365)) eqn:E; [|reflexivity].
  apply Qltb_true in E. exfalso.
  rewrite Zle_Qle in H. change (inject_Z 329) with 329%Q in H.
  assert (Hd : (inject_Z d / 365 == inject_Z d * (1 # 365))%Q) by reflexivity.
  rewrite Hd in E. lra.
Qed.





(** ** The category planner *)

(** The keys of the qualifier table are the nine category names, whatever
    the date threshold. *)
Lemma queries_keys (date_threshold : string) :
  map fst (Functions.queries date_threshold) = CATEGORIES.
Proof. reflexivity. Qed.

Lemma lookup_In {V : Type} (d : dict V) (key : string) :
  lookup d key <> None <-> In key (map fst d).
Proof.
  induction d as [|[k v] rest IH]; simpl.
  - split; [congruence | contradiction].
  - destruct (String.eqb_spec k key) as [->|Hne].
    + split; [auto | discriminate].
    + rewrite IH. split; [auto | intros [H|H]; [contradiction | exact H]].
Qed.

Lemma contains_queries (date_threshold category : string) :
  contains (Functions.queries date_threshold) category = true <->
  In category CATEGORIES.
Proof.
  rewrite <- (queries_keys date_threshold), <- lookup_In. unfold contains.
  destruct (lookup _ category); split; congruence.
Qed.

Lemma search_repositories_total {P : Platform} (query sort : string)
    (per_page : Z) (s : state) :
  exists out s', Functions.search_repositories query sort per_page s = (Return out, s').
Proof.
  rewrite search_repositories_run.
  destruct (rate_limit_remaining s <=? 5); [eauto|]. cbv zeta.
  destruct (network _ _) as [r| |msg]; [|eauto|eauto].
  destruct (status_code r =? 200).
  - destruct (body r) as [[items|]|]; eauto.
  - destruct (status_code r =? 403); [eauto|].
    destruct (status_code r =? 422); eauto.
Qed.

Lemma calculate_interest_score_total {P : Platform} (r : repo) (s : state) :
  exists sc s',
    Functions.calculate_interest_score r s = (Return sc, s') /\ sr_repo sc = r.
Proof.
  destruct (recency_multiplier_total r s) as (m & s' & Hm & _).
  eexists _, s'. split; [exact (calculate_interest_score_run r s m s' Hm)|].
  reflexivity.
Qed.

(** The loop scores the records in the order of the search result. *)
Lemma score_each_total {P : Platform} (repos : list repo)
    (scored_repos : list scored) (s : state) :
  exists l s',
    Functions.score_each repos scored_repos s = (Return (scored_repos ++ l)%list, s') /\
    map sr_repo l = repos.
Proof.
  revert scored_repos s.
  induction repos as [|r rest IH]; intros acc s; simpl.
  - exists [], s. rewrite app_nil_r. split; reflexivity.
  - destruct (calculate_interest_score_total r s) as (sc & s1 & Hsc & Hrepo).
    destruct (IH (acc ++ [sc])%list s1) as (l & s' & Hl & Hmap).
    exists (sc :: l), s'. unfold bind. rewrite Hsc, Hl, <- app_assoc.
    split; [reflexivity|]. simpl. rewrite Hrepo, Hmap. reflexivity.
Qed.

(** The scores 50, 75, 50 come back as 75, 50, 50, the two ties in the
    order of the search result, from the qualifier of [hidden_gems]. *)
Example scan_hidden_gems :
  let '(out, s') :=
    @Functions.scan_trending_by_category
      (Demo.platform (Demo.at_time "2025-01-01T00:00:00Z")
         (Demo.ok [Demo.a_repo "a/b" 50 "2025-01-01T00:00:00Z";
                   Demo.a_repo "c/d" 75 "2025-01-01T00:00:00Z";
                   Demo.a_repo "e/f" 50 "2025-01-01T00:00:00Z"]))
      "hidden_gems" 7 (Demo.scanner 60) in
  match out with
  | Return l => map (fun x => full_name (sr_repo x)) l
  | Raise _ => []
  end = [Some "c/d"; Some "a/b"; Some "e/f"] /\
  map (fun rq => lookup (params rq) "q") (sent s')
  = [Some (PStr "stars:10..100 forks:>5 created:>2024-12-25")] /\
  rate_limit_remaining s' = 59.
Proof. vm_compute. repeat split. Qed.

(** ** The scanner on CPython's values *)

(** What a call of [Cpython.search_repositories] does, outcome by outcome. *)
Lemma cpython_search_run {P : Platform} {J : RawJson} (query sort : string)
    (per_page : Z) (s : state) :
  Cpython.search_repositories query sort per_page s =
  if rate_limit_remaining s <=? 5
  then (Return (Some []), notify (StWarning RateLimitLow) s)
  else
    let rq := search_request (headers s) query sort per_page in
    let s1 := record_request rq s in
    match network (List.length (sent s)) rq with
    | Responded r =>
        if status_code r =? 200 then
          let s2 := with_remaining (rate_limit_remaining s - 1) s1 in
          match body r with
          | Some (JObject items) =>
              (Return (if items_null r then None else Some (get items [])), s2)
          | Some JOther =>
              (Return (Some []), notify (StError (ErrorFetching AttributeError)) s2)
          | None =>
              (Return (Some []), notify (StError (ErrorFetching JSONDecodeError)) s2)
          end
        else if status_code r =? 403 then
          (Return (Some []), notify (StError RateLimitExceeded) s1)
        else if status_code r =? 422 then
          (Return (Some []), notify (StError (InvalidSearchQuery query)) s1)
        else
          (Return (Some []),
           notify (StError (GitHubApiError (status_code r)
                              (substring 0 200 (text r)))) s1)
    | TimedOut => (Return (Some []), notify (StError RequestTimedOut) s1)
    | Failed msg =>
        (Return (Some []),
         notify (StError (ErrorFetching (RequestException msg))) s1)
    end.
Proof.
  unfold Cpython.search_repositories, search_request. run.
  destruct (rate_limit_remaining s <=? 5); [reflexivity|].
  unfold Functions.GITHUB_API_BASE. simpl.
  destruct (network _ _) as [r| |msg]; simpl; try reflexivity.
  destruct (status_code r =? 200); simpl.
  - destruct (body r) as [[items|]|]; simpl; try reflexivity.
    destruct (items_null r); reflexivity.
  - destruct (status_code r =? 403); simpl; [reflexivity|].
    destruct (status_code r =? 422); reflexivity.
Qed.

(** Where [items] is not [null] the search is the one of [Module
    Functions]. *)
Lemma cpython_search_typed {P : Platform} {J : RawJson} (query sort : string)
    (per_page : Z) (s : state) :
  (forall r, items_null r = false) ->
  Cpython.search_repositories query sort per_page s =
  match Functions.search_repositories query sort per_page s with
  | (Return out, s') => (Return (Some out), s')
  | (Raise e, s') => (Raise e, s')
  end.
Proof.
  intro Hnull. rewrite cpython_search_run, search_repositories_run.
  destruct (rate_limit_remaining s <=? 5); [reflexivity|]. cbv zeta.
  destruct (network _ _) as [r| |msg]; try reflexivity.
  destruct (status_code r =? 200).
  - destruct (body r) as [[items|]|]; try reflexivity.
    rewrite Hnull. reflexivity.
  - destruct (status_code r =? 403); [reflexivity|].
    destruct (status_code r =? 422); reflexivity.
Qed.

(** A failed search returns the empty list and shows one notice. *)
Lemma cpython_search_failure {P : Platform} {J : RawJson} (query sort : string)
    (per_page : Z) (s : state) :
  search_fails query sort per_page s ->
  exists s' n,
    Cpython.search_repositories query sort per_page s = (Return (Some []), s') /\
    shown s' = n :: shown s /\
    (sent s' = sent s \/
     sent s' = search_request (headers s) query sort per_page :: sent s).
Proof.
  unfold search_fails. intro Hfail. rewrite cpython_search_run.
  destruct (rate_limit_remaining s <=? 5) eqn:Hq.
  - do 2 eexists. split; [reflexivity|]. split; [reflexivity | left; reflexivity].
  - apply Z.leb_gt in Hq. destruct Hfail as [Hlow|Hfail]; [lia|]. cbv zeta.
    destruct (network _ _) as [r| |msg].
    + destruct (status_code r =? 200) eqn:E200.
      * apply Z.eqb_eq in E200.
        destruct Hfail as [H|[H|H]]; [contradiction| |]; rewrite H;
          do 2 eexists; (split; [reflexivity|]);
          (split; [reflexivity | right; reflexivity]).
      * destruct (status_code r =? 403); [|destruct (status_code r =? 422)];
          do 2 eexists; (split; [reflexivity|]);
          (split; [reflexivity | right; reflexivity]).
    + do 2 eexists. split; [reflexivity|].
      split; [reflexivity | right; reflexivity].
    + do 2 eexists. split; [reflexivity|].
      split; [reflexivity | right; reflexivity].
Qed.

Lemma cpython_search_total {P : Platform} {J : RawJson} (query sort : string)
    (per_page : Z) (s : state) :
  exists found s',
    Cpython.search_repositories query sort per_page s = (Return found, s').
Proof.
  rewrite cpython_search_run.
  destruct (rate_limit_remaining s <=? 5); [eauto|]. cbv zeta.
  destruct (network _ _) as [r| |msg]; [|eauto|eauto].
  destruct (status_code r =? 200).
  - destruct (body r) as [[items|]|]; eauto.
  - destruct (status_code r =? 403); [eauto|].
    destruct (status_code r =? 422); eauto.
Qed.




(** The scan up to the search: the clock is read, the threshold computed,
    the category looked up. *)
Lemma cpython_scan_threshold {P : Platform} {F : FloatArith} {J : RawJson}
    (category : string) (days_back : Z) (s : state) :
  representable (clock (ticks s)) days_back ->
  Cpython.scan_trending_by_category category days_back s =
  let queries :=
    Functions.queries
      (strftime (clock (ticks s) - timedelta_of_days days_back)) in
  match lookup queries category with
  | None => (Return [], notify (StError (UnknownCategory category)) (tick s))
  | Some query =>
      match Cpython.search_repositories query "stars" 30 (tick s) with
      | (Return (Some repos), s1) =>
          match Cpython.score_each repos [] s1 with
          | (Return scored_repos, s2) =>
              (Return (sorted_by Cpython.score_ltb true scored_repos), s2)
          | (Raise e, s2) => (Raise e, s2)
          end
      | (Return None, s1) => (Raise TypeError, s1)
      | (Raise e, s1) => (Raise e, s1)
      end
  end.
Proof.
  intros [Hdays [Hmin Hmax]].
  unfold Cpython.scan_trending_by_category, timedelta_days, datetime_minus,
    bind, datetime_now, contains, not_none, subscript, ret, raise,
    st_error, st_show.
  apply Z.leb_le in Hdays, Hmin, Hmax. rewrite Hdays. cbv beta iota zeta.
  rewrite Hmin, Hmax. cbv beta iota zeta delta [andb].
  destruct (lookup _ category) as [query|];
    cbv beta iota zeta delta [negb]; [|reflexivity].
  destruct (Cpython.search_repositories query "stars" 30 (tick s))
    as [[[repos|]|e] s1]; reflexivity.
Qed.

(** Out of the range of [datetime] the scan raises before it looks at the
    category. *)
Lemma cpython_scan_overflow {P : Platform} {F : FloatArith} {J : RawJson}
    (category : string) (days_back : Z) (s : state) :
  ~ representable (clock (ticks s)) days_back ->
  Cpython.scan_trending_by_category category days_back s
    = (Raise OverflowError, tick s).
Proof.
  intro Hout.
  unfold Cpython.scan_trending_by_category, timedelta_days, datetime_minus,
    bind, datetime_now, ret, raise.
  destruct (Z.abs days_back <=? 999999999) eqn:Hdays; [|reflexivity].
  cbv beta iota zeta.
  destruct ((datetime_min <=? clock (ticks s) - timedelta_of_days days_back)
            && (clock (ticks s) - timedelta_of_days days_back <=? datetime_max))
    eqn:Hrange; [|reflexivity].
  exfalso. apply Hout. apply andb_true_iff in Hrange.
  destruct Hrange as [Hmin Hmax].
  apply Z.leb_le in Hdays, Hmin, Hmax. repeat split; assumption.
Qed.

(** C3, as the code has it: for a category that is not one of the nine
    names and a lookback whose date [datetime] can represent, the scan shows
    the unknown-category error and returns the empty list; it sends no
    request and leaves the quota counter alone.  For any other lookback the
    date arithmetic, which comes before the category is looked at, raises
    OverflowError: nothing is shown and nothing returned. *)
Theorem scan_unknown_category {P : Platform} {F : FloatArith} {J : RawJson}
    (category : string) (days_back : Z) (s : state) :
  ~ In category CATEGORIES ->
  (representable (clock (ticks s)) days_back ->
   exists s',
     Cpython.scan_trending_by_category category days_back s = (Return [], s') /\
     shown s' = StError (UnknownCategory category) :: shown s /\
     sent s' = sent s /\
     rate_limit_remaining s' = rate_limit_remaining s) /\
  (~ representable (clock (ticks s)) days_back ->
   exists s',
     Cpython.scan_trending_by_category category days_back s
       = (Raise OverflowError, s') /\
     shown s' = shown s /\ sent s' = sent s /\
     rate_limit_remaining s' = rate_limit_remaining s).
Proof.
  intro Hnot. split.
  - intro Hrange.
    rewrite (cpython_scan_threshold category days_back s Hrange). cbv zeta.
    destruct (lookup _ category) as [query|] eqn:E.
    + exfalso. apply Hnot.
      apply (contains_queries
               (strftime (clock (ticks s) - timedelta_of_days days_back))).
      unfold contains. rewrite E. reflexivity.
    + eexists. repeat split; reflexivity.
  - intro Hout. rewrite (cpython_scan_overflow category days_back s Hout).
    eexists. repeat split; reflexivity.
Qed.

Lemma scan_unknown_category_witness :
  exists s',
    @Cpython.scan_trending_by_category
      (Demo.platform (Demo.at_time "2025-01-01T00:00:00Z") (Demo.ok []))
      Binary64.arith Demo.no_null
      "unknown_category" 7 (Demo.scanner 60) = (Return [], s') /\
    shown s' = [StError (UnknownCategory "unknown_category")] /\
    sent s' = [] /\
    rate_limit_remaining s' = 60.
Proof.
  apply (@scan_unknown_category
           (Demo.platform (Demo.at_time "2025-01-01T00:00:00Z") (Demo.ok []))
           Binary64.arith Demo.no_null
           "unknown_category" 7 (Demo.scanner 60)).
  - unfold CATEGORIES. simpl. intuition discriminate.
  - vm_compute. repeat split; discriminate.
Defined.

(** C3, as the claim words it, fails: with a lookback of a million days the
    date is before [datetime.min]; the subtraction raises OverflowError
    before the category is looked at, so no error is shown and no list
    returned. *)
Lemma scan_unknown_category_out_of_range :
  exists s',
    @Cpython.scan_trending_by_category
      (Demo.platform (Demo.at_time "2025-01-01T00:00:00Z") (Demo.ok []))
      Binary64.arith Demo.no_null
      "unknown_category" 1000000 (Demo.scanner 60)
    = (Raise OverflowError, s') /\
    shown s' = [].
Proof. eexists. vm_compute. split; reflexivity. Qed.





(** Two records whose exact scores tie at 4914/1825 and whose float scores
    do not: the code puts the one with the greater float first, against the
    order of the search result. *)
Example scan_orders_by_float_score :
  match
    @Cpython.scan_trending_by_category
      (Demo.platform (Demo.at_time "2025-01-01T00:00:00Z")
         (Demo.ok [Demo.a_repo_in "Swift" "swift/four" 4 "2024-10-01T00:00:00Z";
                   Demo.a_repo_in "JavaScript" "js/three" 3 "2024-10-01T00:00:00Z"]))
      Binary64.arith Demo.no_null "hidden_gems" 7 (Demo.scanner 60)
  with
  | (Return out, _) =>
      map (fun x => (full_name (Cpython.sr_repo x), Cpython.score x)) out
  | (Raise _, _) => []
  end
  = [(Some "js/three", Binary64.Finite (6063202347643457 # 2251799813685248));
     (Some "swift/four", Binary64.Finite (94737536681929 # 35184372088832))].
Proof. vm_compute. reflexivity. Qed.

(** ** [Module Functions] is [Module Cpython] with exact arithmetic *)

Lemma exact_score {P : Platform} (r : repo) (s : state) :
  @Cpython.calculate_interest_score P Exact.arith r s =
  match Functions.calculate_interest_score r s with
  | (Return sc, s') => (Return (exact_scored sc), s')
  | (Raise e, s') => (Raise e, s')
  end.
Proof.
  unfold Cpython.calculate_interest_score, Functions.calculate_interest_score,
    Cpython.base_popularity, Cpython.activity_score, Cpython.recency_multiplier,
    Functions.recency_multiplier, Cpython.language_boost,
    Functions.base_popularity, Functions.activity_score,
    Cpython.int_times, Cpython.plus_int, Cpython.int_div, exact_scored,
    fl_max, py_max.
  run.
  destruct (created_at r) as [field|]; simpl;
    [destruct (strptime field) as [created|]; simpl|];
    destruct (get (has_wiki r) false); reflexivity.
Qed.

Lemma exact_score_each {P : Platform} (repos : list repo)
    (scored_repos : list scored) (s : state) :
  @Cpython.score_each P Exact.arith repos (map exact_scored scored_repos) s =
  match Functions.score_each repos scored_repos s with
  | (Return out, s') => (Return (map exact_scored out), s')
  | (Raise e, s') => (Raise e, s')
  end.
Proof.
  revert scored_repos s. induction repos as [|r rest IH]; intros acc s; simpl.
  - reflexivity.
  - unfold bind. rewrite exact_score.
    destruct (Functions.calculate_interest_score r s) as [[sc|e] s1];
      [|reflexivity].
    rewrite <- IH, map_app. reflexivity.
Qed.

Lemma exact_insert (x : scored) (l : list scored) :
  insert_by (@Cpython.score_ltb Exact.arith) (exact_scored x)
            (map exact_scored l)
  = map exact_scored (insert score x l).
Proof.
  induction l as [|y ys IH]; [reflexivity|].
  cbn [map insert_by insert].
  change (@Cpython.score_ltb Exact.arith (exact_scored y) (exact_scored x))
    with (Qltb (score y) (score x)).
  destruct (Qltb (score y) (score x)); cbn [map]; [rewrite IH|]; reflexivity.
Qed.

Lemma exact_sorted (l : list scored) :
  sorted_by (@Cpython.score_ltb Exact.arith) true (map exact_scored l)
  = map exact_scored (sorted score true l).
Proof.
  unfold sorted_by, sorted. change (@float Exact.arith) with Q.
  rewrite <- (map_rev exact_scored l),
    (map_rev exact_scored (stable_sort score (rev l))).
  f_equal.
  induction (rev l) as [|x xs IH]; [reflexivity|].
  cbn [map stable_sort_by stable_sort]. rewrite IH. apply exact_insert.
Qed.

(** With exact arithmetic, a date in range and no [null] under [items], the
    scan of [Module Cpython] is the scan of [Module Functions]. *)
Lemma exact_scan {P : Platform} {J : RawJson} (category : string)
    (days_back : Z) (s : state) :
  (forall r, items_null r = false) ->
  representable (clock (ticks s)) days_back ->
  @Cpython.scan_trending_by_category P Exact.arith J category days_back s =
  match Functions.scan_trending_by_category category days_back s with
  | (Return out, s') => (Return (map exact_scored out), s')
  | (Raise e, s') => (Raise e, s')
  end.
Proof.
  intros Hnull Hrange.
  rewrite (cpython_scan_threshold category days_back s Hrange). cbv zeta.
  unfold Functions.scan_trending_by_category, bind, datetime_now, contains,
    subscript, ret, st_error, st_show.
  destruct (lookup _ category) as [query|]; simpl; [|reflexivity].
  rewrite (cpython_search_typed query "stars" 30 (tick s) Hnull).
  destruct (Functions.search_repositories query "stars" 30 (tick s))
    as [[repos|e] s1]; [|reflexivity].
  pose proof (exact_score_each repos [] s1) as Hloop. cbn [map] in Hloop.
  change (@float Exact.arith) with Q. rewrite Hloop.
  destruct (Functions.score_each repos [] s1) as [[l|e] s2]; [|reflexivity].
  cbv beta iota. f_equal. f_equal. apply exact_sorted.
Qed.

(** ** No failure of a search escapes the scanner *)

Lemma get_repos_run {P : Platform} (language sort_by order : string)
    (per_page : Z) (s : state) :
  Main.get_repos language sort_by order per_page s =
  let rq := get_repos_request language sort_by order per_page in
  let s1 := record_request rq s in
  match network (List.length (sent s)) rq with
  | Responded r =>
      if (400 <=? status_code r) && (status_code r <? 600)
      then (Raise (HTTPError (status_code r)), s1)
      else match body r with
           | Some (JObject (Some items)) => (Return items, s1)
           | Some (JObject None) => (Raise (KeyError "items"), s1)
           | Some JOther => (Raise TypeError, s1)
           | None => (Raise JSONDecodeError, s1)
           end
  | TimedOut => (Raise Timeout, s1)
  | Failed msg => (Raise (RequestException msg), s1)
  end.
Proof.
  unfold Main.get_repos, get_repos_request. run.
  destruct (network _ _) as [r| |msg]; simpl; try reflexivity.
  destruct ((400 <=? status_code r) && (status_code r <? 600)); simpl;
    [reflexivity|].
  destruct (body r) as [[[items|]|]|]; reflexivity.
Qed.

Lemma error_status_test (code : Z) :
  (400 <=? code) && (code <? 600) = true <-> error_status code.
Proof. unfold error_status. rewrite andb_true_iff. lia. Qed.

(** C9, as the code has it, on a scanner whose quota counter is an integer.
    [search_repositories] never raises, and every
    failure of the call (refusal at the low-water mark, timeout, network
    failure, a status other than 200, a body that is not a JSON object)
    ends in the empty list and one notice; on a successful answer it
    returns what [items] holds, [None] for [null].  For a lookback in the
    range of [datetime] the scan ends in the empty list and one notice on
    each of those failures.  What follows a successful answer is under no
    handler in the scan: [None] in place of a list raises TypeError and an
    exception of the scoring loop, the OverflowError of a count that does
    not convert to a float, goes to the caller; so does the OverflowError
    of a lookback out of range.  [get_repos] of src/main.py handles
    nothing: it returns the items exactly when the call is answered with a
    status outside 400..599 and a JSON object that has an [items] key, and
    raises otherwise. *)
Theorem search_failures_handled_by_scanner {P : Platform} {F : FloatArith}
    {J : RawJson} :
  (forall query sort per_page s,
     (exists found s',
        Cpython.search_repositories query sort per_page s = (Return found, s')) /\
     (search_fails query sort per_page s ->
      exists s' n,
        Cpython.search_repositories query sort per_page s
          = (Return (Some []), s') /\
        shown s' = n :: shown s) /\
     (forall r items,
        5 < rate_limit_remaining s ->
        network (List.length (sent s))
                (search_request (headers s) query sort per_page) = Responded r ->
        status_code r = 200 -> body r = Some (JObject items) ->
        exists s',
          Cpython.search_repositories query sort per_page s
            = (Return (if items_null r then None else Some (get items [])), s') /\
          shown s' = shown s)) /\
  (forall query sort per_page s,
     exists out s',
       Functions.search_repositories query sort per_page s = (Return out, s') /\
       Test.search_repositories query sort per_page s = (Return out, s')) /\
  (forall category days_back s query,
     representable (clock (ticks s)) days_back ->
     lookup (Functions.queries
               (strftime (clock (ticks s) - timedelta_of_days days_back)))
            category = Some query ->
     (search_fails query "stars" 30 (tick s) ->
      exists s' n,
        Cpython.scan_trending_by_category category days_back s = (Return [], s') /\
        shown s' = n :: shown s) /\
     (forall s1,
        Cpython.search_repositories query "stars" 30 (tick s) = (Return None, s1) ->
        Cpython.scan_trending_by_category category days_back s
          = (Raise TypeError, s1)) /\
     (forall repos s1 e s2,
        Cpython.search_repositories query "stars" 30 (tick s)
          = (Return (Some repos), s1) ->
        Cpython.score_each repos [] s1 = (Raise e, s2) ->
        Cpython.scan_trending_by_category category days_back s = (Raise e, s2))) /\
  (forall r s,
     fl_of_int (get (stargazers_count r) 0) = None ->
     Cpython.calculate_interest_score r s = (Raise OverflowError, s)) /\
  (forall category days_back s,
     ~ representable (clock (ticks s)) days_back ->
     Cpython.scan_trending_by_category category days_back s
       = (Raise OverflowError, tick s)) /\
  (forall language sort_by order per_page s,
     (exists out s',
        Main.get_repos language sort_by order per_page s = (Return out, s')) <->
     (exists r out,
        network (List.length (sent s))
                (get_repos_request language sort_by order per_page) = Responded r /\
        ~ error_status (status_code r) /\
        body r = Some (JObject (Some out)))).
Proof.
  split.
  { intros query sort per_page s.
    split; [apply cpython_search_total|].
    split.
    - intro Hfail.
      destruct (cpython_search_failure query sort per_page s Hfail)
        as (s' & n & Hrun & Hshown & _).
      eauto.
    - intros r items Hq Hnet Hstatus Hbody.
      rewrite cpython_search_run. apply Z.leb_gt in Hq. rewrite Hq.
      cbv zeta. rewrite Hnet, Hstatus, Hbody. simpl.
      eexists. split; reflexivity. }
  split.
  { intros query sort per_page s.
    destruct (search_repositories_total query sort per_page s)
      as (out & s' & H).
    exists out, s'. split; [exact H|].
    rewrite <- H. apply search_repositories_copy. }
  split.
  { intros category days_back s query Hrange Hq.
    rewrite (cpython_scan_threshold category days_back s Hrange).
    cbv zeta. rewrite Hq.
    split; [|split].
    - intro Hfail.
      destruct (cpython_search_failure query "stars" 30 (tick s) Hfail)
        as (s' & n & Hrun & Hshown & _).
      rewrite Hrun. simpl. eauto.
    - intros s1 Hrun. rewrite Hrun. reflexivity.
    - intros repos s1 e s2 Hrun Hloop. rewrite Hrun, Hloop. reflexivity. }
  split.
  { intros r s Hstars.
    unfold Cpython.calculate_interest_score, Cpython.base_popularity,
      Cpython.int_times, bind.
    rewrite Hstars. reflexivity. }
  split; [intros; apply cpython_scan_overflow; assumption|].
  intros language sort_by order per_page s.
  rewrite get_repos_run. cbv zeta.
  destruct (network _ _) as [r| |msg].
  - destruct ((400 <=? status_code r) && (status_code r <? 600)) eqn:E.
    + apply error_status_test in E. split.
      * intros (out & s' & H). discriminate.
      * intros (r' & out & Hr & Hok & _). injection Hr as <-. contradiction.
    + assert (Hok : ~ error_status (status_code r)).
      { intro H. apply error_status_test in H. congruence. }
      destruct (body r) as [[[items|]|]|] eqn:Hb; split;
        try (intros (out & s' & H); discriminate);
        try (intros (r' & out & Hr & _ & Hbody); injection Hr as <-; congruence).
      * intros _. exists r, items. auto.
      * intros _. eauto.
  - split; [intros (out & s' & H); discriminate
           | intros (r & out & Hr & _); discriminate].
  - split; [intros (out & s' & H); discriminate
           | intros (r & out & Hr & _); discriminate].
Qed.

(** C9, as the claim words it, fails: on a 403 answer [get_repos] raises. *)
Lemma get_repos_raises_on_http_error :
  exists s',
    @Main.get_repos (Demo.platform 0 (Demo.status 403))
      "python" "stars" "desc" 5 (Demo.scanner 60)
    = (Raise (HTTPError 403), s').
Proof. eexists. vm_compute. reflexivity. Qed.

(** An answer whose [items] is [null]: the search returns [None] and the
    loop of the scan raises TypeError. *)
Example scan_raises_on_null_items :
  @Cpython.scan_trending_by_category
    (Demo.platform (Demo.at_time "2025-01-01T00:00:00Z") (Demo.status 200))
    Binary64.arith Demo.null_items "hidden_gems" 7 (Demo.scanner 60)
  = (Raise TypeError,
     with_remaining 59
       (record_request
          (search_request (headers (Demo.scanner 60))
             "stars:10..100 forks:>5 created:>2024-12-25" "stars" 30)
          (tick (Demo.scanner 60)))).
Proof. vm_compute. reflexivity. Qed.

(** A star count of [2^1024] does not convert to a float: the scan raises
    OverflowError. *)
Example scan_raises_on_huge_count :
  exists s',
    @Cpython.scan_trending_by_category
      (Demo.platform (Demo.at_time "2025-01-01T00:00:00Z")
         (Demo.ok [Demo.a_repo "a/b" (2 ^ 1024) "2024-10-01T00:00:00Z"]))
      Binary64.arith Demo.no_null "hidden_gems" 7 (Demo.scanner 60)
    = (Raise OverflowError, s').
Proof. eexists. vm_compute. reflexivity. Qed.

(** ** The two copies *)

(** C10: the copy in src/test.py computes what src/functions.py computes:
    the same score and reasoning for every record in every state, the same
    qualifier table for every date threshold, the same search, and the same
    ordered output of the scan for every category and lookback. *)
Theorem copies_agree {P : Platform} :
  (forall r s,
     Test.calculate_interest_score r s = Functions.calculate_interest_score r s) /\
  (forall date_threshold,
     Test.queries date_threshold = Functions.queries date_threshold) /\
  (forall query sort per_page s,
     Test.search_repositories query sort per_page s =
     Functions.search_repositories query sort per_page s) /\
  (forall category days_back s,
     Test.scan_trending_by_category category days_back s =
     Functions.scan_trending_by_category category days_back s).
Proof. repeat split. Qed.

(** ** Sequences of searches *)

Lemma cons_neq {A : Type} (x : A) (l : list A) : x :: l <> l.
Proof.
  intro H. apply (f_equal (@List.length A)) in H. simpl in H. lia.
Qed.

(** One search: what it may change. *)
Lemma search_repositories_step {P : Platform} (query sort : string)
    (per_page : Z) (s : state) :
  exists out s',
    Functions.search_repositories query sort per_page s = (Return out, s') /\
    headers s' = headers s /\ ticks s' = ticks s /\
    (sent s' = sent s \/
     sent s' = search_request (headers s) query sort per_page :: sent s) /\
    rate_limit_remaining s' <= rate_limit_remaining s /\
    Z.min 5 (rate_limit_remaining s) <= rate_limit_remaining s' /\
    (out <> [] -> rate_limit_remaining s' = rate_limit_remaining s - 1).
Proof.
  rewrite search_repositories_run.
  destruct (rate_limit_remaining s <=? 5) eqn:Hq.
  - apply Z.leb_le in Hq. do 2 eexists. split; [reflexivity|]. simpl.
    repeat split; auto; try lia. congruence.
  - apply Z.leb_gt in Hq. cbv zeta.
    destruct (network _ _) as [r| |msg].
    + destruct (status_code r =? 200).
      * destruct (body r) as [[items|]|];
          do 2 eexists; (split; [reflexivity|]); simpl;
          repeat split; auto; try lia; congruence.
      * destruct (status_code r =? 403); [|destruct (status_code r =? 422)];
          do 2 eexists; (split; [reflexivity|]); simpl;
          repeat split; auto; try lia; congruence.
    + do 2 eexists. split; [reflexivity|]. simpl.
      repeat split; auto; try lia; congruence.
    + do 2 eexists. split; [reflexivity|]. simpl.
      repeat split; auto; try lia; congruence.
Qed.

(** Any number of searches: the headers and the clock are left alone, every
    request carries the scanner's headers and the timeout of 10, and the
    counter pays one unit for every search that came back with records. *)
Lemma searches_invariant {P : Platform} (calls : list (string * string * Z))
    (s : state) :
  exists outs s',
    searches calls s = (Return outs, s') /\
    List.length outs = List.length calls /\
    headers s' = headers s /\ ticks s' = ticks s /\
    (exists new,
       sent s' = (new ++ sent s)%list /\
       (List.length new <= List.length calls)%nat /\
       Forall (fun rq => req_headers rq = Some (headers s) /\
                         timeout rq = Some 10) new) /\
    rate_limit_remaining s' <= rate_limit_remaining s /\
    Z.min 5 (rate_limit_remaining s) <= rate_limit_remaining s' /\
    Z.of_nat (with_results outs) <= rate_limit_remaining s - rate_limit_remaining s'.
Proof.
  revert s. induction calls as [|[[query sort] per_page] rest IH]; intro s.
  - exists [], s. simpl. repeat split; try lia.
    exists []. repeat split; auto.
  - destruct (search_repositories_step query sort per_page s)
      as (out & s1 & Hrun & Hh & Ht & Hsent & Hle & Hmin & Hout).
    destruct (IH s1) as (outs & s' & Hrest & Hlen & Hh' & Ht' & Hsent' & Hle' & Hmin' & Hcount).
    exists (out :: outs), s'. simpl. unfold bind. rewrite Hrun, Hrest.
    split; [reflexivity|]. split; [simpl; congruence|].
    split; [congruence|]. split; [congruence|]. split.
    + destruct Hsent' as (new & Hnew & Hlen' & Hall).
      rewrite Hh in Hall.
      destruct Hsent as [Hs|Hs]; rewrite Hs in Hnew.
      * exists new. repeat split; auto.
      * exists (new ++ [search_request (headers s) query sort per_page])%list.
        rewrite <- app_assoc. split; [exact Hnew|].
        rewrite length_app. simpl. split; [lia|].
        apply Forall_app. split; [exact Hall|].
        constructor; [split; reflexivity | constructor].
    + split; [lia|]. split; [lia|].
      unfold with_results in *. simpl.
      destruct out as [|r out']; simpl; [lia|].
      assert (rate_limit_remaining s1 = rate_limit_remaining s - 1)
        by (apply Hout; discriminate).
      lia.
Qed.

(** X2: once the counter is at 5 or below, no sequence of searches gets
    through: no request is sent, every result is empty, the counter keeps
    its value, and each call shows the low-quota warning. *)
Theorem searches_refused_for_good {P : Platform}
    (calls : list (string * string * Z)) (s : state) :
  rate_limit_remaining s <= 5 ->
  exists s',
    searches calls s = (Return (map (fun _ => []) calls), s') /\
    sent s' = sent s /\
    rate_limit_remaining s' = rate_limit_remaining s /\
    shown s' = (repeat (StWarning RateLimitLow) (List.length calls) ++ shown s)%list.
Proof.
  revert s. induction calls as [|[[query sort] per_page] rest IH]; intros s Hlow.
  - exists s. repeat split.
  - destruct (IH (notify (StWarning RateLimitLow) s) Hlow)
      as (s' & Hrest & Hsent & Hrem & Hshown).
    exists s'. simpl. unfold bind. rewrite search_repositories_run.
    pose proof Hlow as Hb. apply Z.leb_le in Hb. rewrite Hb, Hrest.
    split; [reflexivity|]. split; [exact Hsent|]. split; [exact Hrem|].
    rewrite Hshown. simpl.
    rewrite app_comm_cons, repeat_cons, <- app_assoc. reflexivity.
Qed.

Lemma searches_refused_for_good_witness :
  exists s',
    @searches (Demo.platform 0 (Demo.ok [Demo.a_repo "a/b" 7 "2024-01-01T00:00:00Z"]))
      [("language:python", "stars", 30); ("topic:react", "updated", 10)]
      (Demo.scanner 5)
    = (Return [[]; []], s') /\
    sent s' = [] /\
    rate_limit_remaining s' = 5 /\
    shown s' = [StWarning RateLimitLow; StWarning RateLimitLow].
Proof.
  apply (@searches_refused_for_good
           (Demo.platform 0 (Demo.ok [Demo.a_repo "a/b" 7 "2024-01-01T00:00:00Z"]))
           [("language:python", "stars", 30); ("topic:react", "updated", 10)]
           (Demo.scanner 5)).
  simpl. lia.
Defined.

(** X3: an answer with status 200 whose body is not JSON, or is JSON but not
    an object, still costs one unit of the counter; the search returns the
    empty list and shows the generic fetch error. *)
Theorem search_undecodable_200_costs_quota {P : Platform} (query sort : string)
    (per_page : Z) (s : state) (r : response) :
  5 < rate_limit_remaining s ->
  network (List.length (sent s)) (search_request (headers s) query sort per_page)
    = Responded r ->
  status_code r = 200 ->
  body r = None \/ body r = Some JOther ->
  exists s',
    Functions.search_repositories query sort per_page s = (Return [], s') /\
    rate_limit_remaining s' = rate_limit_remaining s - 1 /\
    shown s' =
      StError (ErrorFetching (match body r with
                              | None => JSONDecodeError
                              | Some _ => AttributeError
                              end)) :: shown s.
Proof.
  intros Hq Hnet Hstatus Hbody. rewrite search_repositories_run.
  apply Z.leb_gt in Hq. rewrite Hq. cbv zeta. rewrite Hnet, Hstatus. simpl.
  destruct Hbody as [-> | ->]; eexists; repeat split; reflexivity.
Qed.

Lemma search_undecodable_200_costs_quota_witness :
  exists s',
    @Functions.search_repositories
      (Demo.platform 0 (Responded {| status_code := 200; text := "<html>";
                                     body := None |}))
      "language:python" "stars" 30 (Demo.scanner 60) = (Return [], s') /\
    rate_limit_remaining s' = 59 /\
    shown s' = [StError (ErrorFetching JSONDecodeError)].
Proof.
  apply (@search_undecodable_200_costs_quota
           (Demo.platform 0 (Responded {| status_code := 200; text := "<html>";
                                          body := None |}))
           "language:python" "stars" 30 (Demo.scanner 60)
           {| status_code := 200; text := "<html>"; body := None |}).
  - simpl. lia.
  - reflexivity.
  - reflexivity.
  - left. reflexivity.
Defined.

(** X4: a search shows at most one notice, and shows none exactly when it
    was let through and answered with status 200 and a JSON object; whenever
    a notice is shown the result is empty. *)
Theorem search_notice_iff_no_result {P : Platform} (query sort : string)
    (per_page : Z) (s : state) :
  exists out s',
    Functions.search_repositories query sort per_page s = (Return out, s') /\
    (shown s' = shown s \/
     exists n, shown s' = n :: shown s /\ out = []) /\
    (shown s' = shown s <->
     5 < rate_limit_remaining s /\
     exists r items,
       network (List.length (sent s))
               (search_request (headers s) query sort per_page) = Responded r /\
       status_code r = 200 /\ body r = Some (JObject items)).
Proof.
  rewrite search_repositories_run.
  destruct (rate_limit_remaining s <=? 5) eqn:Hq.
  - apply Z.leb_le in Hq. do 2 eexists. split; [reflexivity|]. simpl.
    split; [right; eauto|].
    split; [intro H; apply cons_neq in H; contradiction | intros [H _]; lia].
  - apply Z.leb_gt in Hq. cbv zeta.
    destruct (network _ _) as [r| |msg].
    + destruct (status_code r =? 200) eqn:E200.
      * apply Z.eqb_eq in E200.
        destruct (body r) as [[items|]|] eqn:Hb;
          do 2 eexists; (split; [reflexivity|]); simpl.
        -- split; [left; reflexivity|]. split; [|reflexivity].
           intros _. split; [exact Hq|]. exists r, items. auto.
        -- split; [right; eauto|].
           split; [intro H; apply cons_neq in H; contradiction|].
           intros (_ & r' & items & Hr & _ & Hb'). injection Hr as <-. congruence.
        -- split; [right; eauto|].
           split; [intro H; apply cons_neq in H; contradiction|].
           intros (_ & r' & items & Hr & _ & Hb'). injection Hr as <-. congruence.
      * apply Z.eqb_neq in E200.
        destruct (status_code r =? 403); [|destruct (status_code r =? 422)];
          do 2 eexists; (split; [reflexivity|]); simpl;
          (split; [right; eauto|]);
          (split; [intro H; apply cons_neq in H; contradiction|]);
          intros (_ & r' & items & Hr & Hs & _); injection Hr as <-; contradiction.
    + do 2 eexists. split; [reflexivity|]. simpl. split; [right; eauto|].
      split; [intro H; apply cons_neq in H; contradiction|].
      intros (_ & r' & items & Hr & _). discriminate.
    + do 2 eexists. split; [reflexivity|]. simpl. split; [right; eauto|].
      split; [intro H; apply cons_neq in H; contradiction|].
      intros (_ & r' & items & Hr & _). discriminate.
Qed.

(** ** The quota-status call and a fresh scanner *)

(** What a call of [check_rate_limit] does, outcome by outcome. *)
Lemma check_rate_limit_run {P : Platform} {Api : RateLimitApi} (s : state) :
  Functions.check_rate_limit s =
  let rq := rate_limit_request (headers s) in
  let s1 := record_request rq s in
  match network (List.length (sent s)) rq with
  | Responded r =>
      if status_code r =? 200 then
        match body r with
        | Some (JObject items) =>
            match rate_of r with
            | Remaining n =>
                (Return (true, RateLimitData (JObject items)), with_remaining n s1)
            | NoRate =>
                (Return (false, CouldNotCheckRateLimit (KeyError "rate")), s1)
            | RateNotObject =>
                (Return (false, CouldNotCheckRateLimit TypeError), s1)
            | NoRemaining =>
                (Return (false, CouldNotCheckRateLimit (KeyError "remaining")), s1)
            end
        | Some JOther => (Return (false, CouldNotCheckRateLimit TypeError), s1)
        | None => (Return (false, CouldNotCheckRateLimit JSONDecodeError), s1)
        end
      else (Return (false, RateLimitCheckFailed (status_code r)), s1)
  | TimedOut => (Return (false, CouldNotCheckRateLimit Timeout), s1)
  | Failed msg =>
      (Return (false, CouldNotCheckRateLimit (RequestException msg)), s1)
  end.
Proof.
  unfold Functions.check_rate_limit, Functions.rate_remaining, rate_limit_request.
  run. unfold Functions.GITHUB_API_BASE. simpl.
  destruct (network _ _) as [r| |msg]; simpl; try reflexivity.
  destruct (status_code r =? 200); simpl; [|reflexivity].
  destruct (body r) as [[items|]|]; simpl; try reflexivity.
  destruct (rate_of r); reflexivity.
Qed.

(** X5: [check_rate_limit] never raises and is not held back by the local
    counter: in every state, also at or below the low-water mark, it sends
    exactly one request, to the quota-status endpoint, with the scanner's
    headers and no timeout; it shows no notice, and when it reports failure
    the counter keeps its value. *)
Theorem check_rate_limit_always_asks {P : Platform} {Api : RateLimitApi}
    (s : state) :
  exists ok report s',
    Functions.check_rate_limit s = (Return (ok, report), s') /\
    sent s' = rate_limit_request (headers s) :: sent s /\
    shown s' = shown s /\ headers s' = headers s /\ ticks s' = ticks s /\
    (ok = false -> rate_limit_remaining s' = rate_limit_remaining s).
Proof.
  rewrite check_rate_limit_run. cbv zeta.
  destruct (network _ _) as [r| |msg].
  - destruct (status_code r =? 200).
    + destruct (body r) as [[items|]|].
      * destruct (rate_of r); do 3 eexists; (split; [reflexivity|]);
          simpl; repeat split; discriminate.
      * do 3 eexists. split; [reflexivity|]. simpl. repeat split.
      * do 3 eexists. split; [reflexivity|]. simpl. repeat split.
    + do 3 eexists. split; [reflexivity|]. simpl. repeat split.
  - do 3 eexists. split; [reflexivity|]. simpl. repeat split.
  - do 3 eexists. split; [reflexivity|]. simpl. repeat split.
Qed.

(** X6: [check_rate_limit] reports success exactly when the answer has
    status 200 and a JSON object in which [rate.remaining] can be looked up;
    it then returns that object and the counter takes the looked-up value,
    whatever it was before. *)
Theorem check_rate_limit_resynchronises {P : Platform} {Api : RateLimitApi}
    (s : state) :
  exists ok report s',
    Functions.check_rate_limit s = (Return (ok, report), s') /\
    (ok = true <->
     exists r items n,
       network (List.length (sent s)) (rate_limit_request (headers s))
         = Responded r /\
       status_code r = 200 /\ body r = Some (JObject items) /\
       rate_of r = Remaining n /\
       report = RateLimitData (JObject items) /\
       rate_limit_remaining s' = n).
Proof.
  rewrite check_rate_limit_run. cbv zeta.
  destruct (network _ _) as [r| |msg].
  - destruct (status_code r =? 200) eqn:E200.
    + apply Z.eqb_eq in E200.
      destruct (body r) as [[items|]|] eqn:Hb.
      * destruct (rate_of r) as [| | |n] eqn:Hr;
          do 3 eexists; (split; [reflexivity|]);
          (split; [try discriminate|]).
        -- intros (r' & i & n & Hn & _ & _ & Hrate & _). injection Hn as <-. congruence.
        -- intros (r' & i & n & Hn & _ & _ & Hrate & _). injection Hn as <-. congruence.
        -- intros (r' & i & n & Hn & _ & _ & Hrate & _). injection Hn as <-. congruence.
        -- intros _. exists r, items, n. repeat split; auto.
        -- reflexivity.
      * do 3 eexists. split; [reflexivity|]. split; [discriminate|].
        intros (r' & i & n & Hn & _ & Hb' & _). injection Hn as <-. congruence.
      * do 3 eexists. split; [reflexivity|]. split; [discriminate|].
        intros (r' & i & n & Hn & _ & Hb' & _). injection Hn as <-. congruence.
    + apply Z.eqb_neq in E200.
      do 3 eexists. split; [reflexivity|]. split; [discriminate|].
      intros (r' & i & n & Hn & Hs & _). injection Hn as <-. contradiction.
  - do 3 eexists. split; [reflexivity|]. split; [discriminate|].
    intros (r' & i & n & Hn & _). discriminate.
  - do 3 eexists. split; [reflexivity|]. split; [discriminate|].
    intros (r' & i & n & Hn & _). discriminate.
Qed.

(** X7: after a successful [check_rate_limit] the next search is decided by
    the value the endpoint reported, not by the counter's history: it is
    refused without a request when that value is at most 5, and sent when it
    is above 5, also on a scanner that was refusing searches before. *)
Theorem check_then_search {P : Platform} {Api : RateLimitApi} (s : state)
    (r : response) (items : option (list repo)) (n : Z)
    (query sort : string) (per_page : Z) :
  network (List.length (sent s)) (rate_limit_request (headers s)) = Responded r ->
  status_code r = 200 -> body r = Some (JObject items) ->
  rate_of r = Remaining n ->
  exists s1 out s2,
    Functions.check_rate_limit s
      = (Return (true, RateLimitData (JObject items)), s1) /\
    Functions.search_repositories query sort per_page s1 = (Return out, s2) /\
    (n <= 5 ->
       out = [] /\ sent s2 = sent s1 /\ rate_limit_remaining s2 = n /\
       shown s2 = StWarning RateLimitLow :: shown s) /\
    (5 < n ->
       sent s2 = search_request (headers s) query sort per_page
                   :: rate_limit_request (headers s) :: sent s).
Proof.
  intros Hnet Hstatus Hbody Hrate.
  rewrite check_rate_limit_run. cbv zeta.
  rewrite Hnet, Hstatus, Hbody, Hrate. simpl.
  set (s1 := with_remaining n (record_request (rate_limit_request (headers s)) s)).
  exists s1. rewrite search_repositories_run.
  change (rate_limit_remaining s1) with n.
  destruct (n <=? 5) eqn:Hn.
  - apply Z.leb_le in Hn. do 2 eexists. split; [reflexivity|].
    split; [reflexivity|]. split; [intros _; repeat split | intro; lia].
  - apply Z.leb_gt in Hn. cbv zeta.
    match goal with
    | |- context [network ?k ?rq] => destruct (network k rq) as [r'| |msg]
    end.
    + destruct (status_code r' =? 200).
      * destruct (body r') as [[i|]|];
          do 2 eexists; (split; [reflexivity|]); (split; [reflexivity|]);
          (split; [intro; lia | intros _; reflexivity]).
      * destruct (status_code r' =? 403); [|destruct (status_code r' =? 422)];
          do 2 eexists; (split; [reflexivity|]); (split; [reflexivity|]);
          (split; [intro; lia | intros _; reflexivity]).
    + do 2 eexists. split; [reflexivity|]. split; [reflexivity|].
      split; [intro; lia | intros _; reflexivity].
    + do 2 eexists. split; [reflexivity|]. split; [reflexivity|].
      split; [intro; lia | intros _; reflexivity].
Qed.

Lemma check_then_search_witness :
  exists s1 out s2,
    @Functions.check_rate_limit (Demo.platform 0 (Demo.status 200))
      (Demo.rate_api (Remaining 4999)) (Demo.scanner 0)
      = (Return (true, RateLimitData (JObject None)), s1) /\
    @Functions.search_repositories (Demo.platform 0 (Demo.status 200))
      "language:python" "stars" 30 s1 = (Return out, s2) /\
    (4999 <= 5 ->
       out = [] /\ sent s2 = sent s1 /\ rate_limit_remaining s2 = 4999 /\
       shown s2 = [StWarning RateLimitLow]) /\
    (5 < 4999 ->
       sent s2 = [search_request (headers (Demo.scanner 0)) "language:python" "stars" 30;
                  rate_limit_request (headers (Demo.scanner 0))]).
Proof.
  apply (@check_then_search (Demo.platform 0 (Demo.status 200))
           (Demo.rate_api (Remaining 4999)) (Demo.scanner 0)
           {| status_code := 200; text := "{}"; body := Some (JObject None) |}
           None 4999 "language:python" "stars" 30); reflexivity.
Defined.

(** What [__init__] leaves behind. *)
Lemma init_run {Str : StrMethods} (github_token : option string) (s0 : state) :
  exists s1,
    Functions.__init__ github_token s0 = (Return tt, s1) /\
    rate_limit_remaining s1 = 60 /\
    sent s1 = sent s0 /\ shown s1 = shown s0 /\ ticks s1 = ticks s0 /\
    lookup (headers s1) "Accept" = Some "application/vnd.github.v3+json" /\
    lookup (headers s1) "Authorization" =
      match github_token with
      | Some token =>
          if truthy token && truthy (strip token)
          then Some ("token " ++ strip token)
          else None
      | None => None
      end.
Proof.
  eexists. split; [reflexivity|]. simpl. repeat split.
  - destruct github_token as [token|]; [|reflexivity].
    destruct (truthy token && truthy (strip token)); reflexivity.
  - destruct github_token as [token|]; [|reflexivity].
    destruct (truthy token && truthy (strip token)); reflexivity.
Qed.

(** X8: a scanner fresh from [__init__], with a token or without, starts
    with a counter of 60, so at most 55 of its searches can come back with
    records, however many are issued and whatever the network answers; the
    counter then stays between 5 and 60. *)
Theorem fresh_scanner_search_budget {P : Platform} {Str : StrMethods}
    (github_token : option string) (calls : list (string * string * Z))
    (s0 : state) :
  exists s1 outs s',
    Functions.__init__ github_token s0 = (Return tt, s1) /\
    searches calls s1 = (Return outs, s') /\
    (with_results outs <= 55)%nat /\
    5 <= rate_limit_remaining s' <= 60.
Proof.
  destruct (init_run github_token s0) as (s1 & Hinit & Hrem & _).
  destruct (searches_invariant calls s1)
    as (outs & s' & Hrun & _ & _ & _ & _ & Hle & Hmin & Hcount).
  exists s1, outs, s'. split; [exact Hinit|]. split; [exact Hrun|].
  rewrite Hrem in *. lia.
Qed.

(** X9: every request a scanner sends for its searches carries the headers
    [__init__] set: the [Accept] header always, and an [Authorization]
    header [token <t>] with the token stripped of surrounding white space
    exactly when a token was given that is not blank. *)
Theorem fresh_scanner_request_headers {P : Platform} {Str : StrMethods}
    (github_token : option string) (calls : list (string * string * Z))
    (s0 : state) :
  exists s1 outs s' new,
    Functions.__init__ github_token s0 = (Return tt, s1) /\
    searches calls s1 = (Return outs, s') /\
    sent s' = (new ++ sent s0)%list /\
    Forall (fun rq =>
              exists hdrs,
                req_headers rq = Some hdrs /\
                lookup hdrs "Accept" = Some "application/vnd.github.v3+json" /\
                lookup hdrs "Authorization" =
                  match github_token with
                  | Some token =>
                      if truthy token && truthy (strip token)
                      then Some ("token " ++ strip token)
                      else None
                  | None => None
                  end) new.
Proof.
  destruct (init_run github_token s0)
    as (s1 & Hinit & _ & Hsent0 & _ & _ & Hacc & Hauth).
  destruct (searches_invariant calls s1)
    as (outs & s' & Hrun & _ & _ & _ & (new & Hsent & _ & Hall) & _).
  exists s1, outs, s', new. split; [exact Hinit|]. split; [exact Hrun|].
  split; [rewrite Hsent, Hsent0; reflexivity|].
  eapply Forall_impl; [|exact Hall].
  intros rq [Hh _]. exists (headers s1). auto.
Qed.

(** ** More on the score engine *)

Lemma lookup_absent {V : Type} (d : dict V) (key : string) :
  ~ In key (map fst d) -> lookup d key = None.
Proof.
  intro H. destruct (lookup d key) eqn:E; [|reflexivity].
  exfalso. apply H, lookup_In. congruence.
Qed.

(** X10: a record whose language is missing, or is not spelled exactly as
    one of the eleven names of the table (the comparison is case-sensitive),
    gets the language boost 1.0. *)
Theorem language_boost_default (r : repo) :
  (forall l, language r = Some l ->
             ~ In l (map fst Functions.language_multipliers)) ->
  Functions.language_boost r = 1.0%Q.
Proof.
  intro H. unfold Functions.language_boost.
  destruct (language r) as [l|]; [|reflexivity].
  rewrite (lookup_absent _ l (H l eq_refl)). reflexivity.
Qed.

Lemma language_boost_default_witness :
  Functions.language_boost
    {| full_name := Some "a/b"; stargazers_count := Some 1;
       forks_count := None; watchers_count := None; created_at := None;
       language := Some "python"; topics := None; has_wiki := None;
       open_issues_count := None |} = 1.0%Q.
Proof.
  apply language_boost_default.
  intros l Hl. injection Hl as <-. simpl. intuition discriminate.
Defined.

Lemma recency_at_most_one (d : Z) :
  0 <= d -> (py_max 0.1 (1.0 - inject_Z d / 365) <= 1.0)%Q.
Proof.
  intro H. rewrite py_max_Qmax. apply Q.max_lub; [discriminate|].
  rewrite Zle_Qle in H. change (inject_Z 0) with 0%Q in H.
  assert (Hd : (inject_Z d / 365 == inject_Z d * (1 # 365))%Q) by reflexivity.
  rewrite Hd. lra.
Qed.


Lemma days_nonneg (td : timedelta) : 0 <= td -> 0 <= days td.
Proof. intro H. unfold days, US_PER_DAY. apply Z.div_pos; lia. Qed.


(** X11: for a record whose [created_at] parses to an instant that is not
    in the future, the recency multiplier lies between 0.1 and 1.0; it is
    1.0 exactly while the record is less than one day old, and it is at the
    floor 0.1 exactly from the 329th day on. *)
Theorem recency_multiplier_range {P : Platform} (r : repo) (s : state)
    (field : string) (created : datetime) :
  created_at r = Some field -> strptime field = Some created ->
  created <= clock (ticks s) ->
  exists m s',
    Functions.recency_multiplier r s = (Return m, s') /\
    (0.1 <= m <= 1.0)%Q /\
    ((m == 1.0)%Q <-> clock (ticks s) - created < timedelta_of_days 1) /\
    ((m == 0.1)%Q <-> timedelta_of_days 329 <= clock (ticks s) - created).
Proof.
  intros Hfield Hparse Hpast.
  rewrite recency_multiplier_run, Hfield, Hparse.
  set (d := days (clock (ticks s) - created)).
  assert (Hd0 : 0 <= d) by (apply days_nonneg; lia).
  assert (Hd : (inject_Z d / 365 == inject_Z d * (1 # 365))%Q) by reflexivity.
  assert (Hday : d <= 0 <-> clock (ticks s) - created < timedelta_of_days 1).
  { unfold d, days, timedelta_of_days, US_PER_DAY. split; intro H.
    - assert (Hm := Z.mod_pos_bound (clock (ticks s) - created) 86400000000 eq_refl).
      assert (He := Z.div_mod (clock (ticks s) - created) 86400000000).
      lia.
    - assert ((clock (ticks s) - created) / 86400000000 < 1)
        by (apply Z.div_lt_upper_bound; lia).
      lia. }
  assert (Hfloor : 329 <= d <-> timedelta_of_days 329 <= clock (ticks s) - created).
  { unfold d, days, timedelta_of_days, US_PER_DAY. split; intro H.
    - assert (Hm := Z.mod_pos_bound (clock (ticks s) - created) 86400000000 eq_refl).
      assert (He := Z.div_mod (clock (ticks s) - created) 86400000000).
      lia.
    - apply Z.div_le_lower_bound; lia. }
  do 2 eexists. split; [reflexivity|].
  split; [split; [apply py_max_lower | apply recency_at_most_one; exact Hd0]|].
  rewrite <- Hday, <- Hfloor.
  rewrite py_max_Qmax.
  pose proof Hd0 as Hq0. rewrite Zle_Qle in Hq0. change (inject_Z 0) with 0%Q in Hq0.
  split; split; intro H.
  - destruct (Z.le_gt_cases d 0) as [Hle|Hgt]; [exact Hle|exfalso].
    assert (Hq : (1 <= inject_Z d)%Q).
    { change 1%Q with (inject_Z 1). rewrite <- Zle_Qle. lia. }
    destruct (Q.max_spec 0.1 (1.0 - inject_Z d / 365)) as [[_ E]|[_ E]];
      rewrite E in H; [rewrite Hd in H; lra | discriminate].
  - assert (d = 0) by lia. subst d. rewrite H0. reflexivity.
  - destruct (Z.le_gt_cases 329 d) as [Hle|Hgt]; [exact Hle|exfalso].
    assert (Hq : (inject_Z d <= 328)%Q).
    { change 328%Q with (inject_Z 328). rewrite <- Zle_Qle. lia. }
    destruct (Q.max_spec 0.1 (1.0 - inject_Z d / 365)) as [[Hlt E]|[Hlt E]];
      rewrite E in H; rewrite Hd in *; lra.
  - rewrite <- py_max_Qmax. rewrite (recency_floor d H). reflexivity.
Qed.

Lemma recency_multiplier_range_witness :
  exists m s',
    @Functions.recency_multiplier
      (Demo.platform (Demo.at_time "2025-01-01T00:00:00Z") (Demo.ok []))
      (Demo.a_repo "a/b" 100 "2024-12-31T06:00:00Z") (Demo.scanner 60)
    = (Return m, s') /\
    (0.1 <= m <= 1.0)%Q /\
    ((m == 1.0)%Q <->
     Demo.at_time "2025-01-01T00:00:00Z" - Demo.at_time "2024-12-31T06:00:00Z"
       < timedelta_of_days 1) /\
    ((m == 0.1)%Q <->
     timedelta_of_days 329
       <= Demo.at_time "2025-01-01T00:00:00Z" - Demo.at_time "2024-12-31T06:00:00Z").
Proof.
  apply (@recency_multiplier_range
           (Demo.platform (Demo.at_time "2025-01-01T00:00:00Z") (Demo.ok []))
           (Demo.a_repo "a/b" 100 "2024-12-31T06:00:00Z") (Demo.scanner 60)
           "2024-12-31T06:00:00Z" (Demo.at_time "2024-12-31T06:00:00Z")).
  - reflexivity.
  - reflexivity.
  - vm_compute. discriminate.
Defined.






(** ** More on the category planner *)












(** ** The content helpers *)

Ltac run_helper :=
  unfold item, not_none, bind, ret, raise, datetime_now, datetime_strptime;
  simpl.

Lemma mem_In (x : string) (l : list string) : mem x l = true <-> In x l.
Proof.
  unfold mem. rewrite existsb_exists. split.
  - intros (y & Hin & Heq). apply String.eqb_eq in Heq. congruence.
  - intro Hin. exists x. split; [exact Hin | apply String.eqb_refl].
Qed.

(** X19: [determine_content_type] needs a parsable [created_at] even when
    the star count alone would decide: with the key absent it raises
    KeyError, with [null] TypeError, with text that [strptime] rejects
    ValueError, after one reading of the clock. *)
Theorem determine_content_type_needs_created_at {P : Platform}
    {Str : StrMethods} (repo : repo_object) (s : state) :
  o_stargazers_count repo <> Absent ->
  (forall created_at, o_created_at repo = Present created_at ->
                      strptime created_at = None) ->
  Functions.determine_content_type repo s =
    (Raise (match o_created_at repo with
            | Absent => KeyError "created_at"
            | Null => TypeError
            | Present _ => ValueError
            end), tick s).
Proof.
  intros Hstars Hbad. unfold Functions.determine_content_type. run_helper.
  destruct (o_stargazers_count repo) as [| |stars]; [contradiction| |];
    simpl;
    (destruct (o_created_at repo) as [| |c]; simpl; try reflexivity;
     rewrite (Hbad c eq_refl); reflexivity).
Qed.

Lemma determine_content_type_needs_created_at_witness :
  @Functions.determine_content_type
    (Demo.platform (Demo.at_time "2025-01-01T00:00:00Z") (Demo.ok []))
    Demo.str_methods
    (Demo.an_object 50000 "2024-06-01" Absent Absent Absent) (Demo.scanner 60)
  = (Raise ValueError, tick (Demo.scanner 60)).
Proof.
  apply (@determine_content_type_needs_created_at
           (Demo.platform (Demo.at_time "2025-01-01T00:00:00Z") (Demo.ok []))
           Demo.str_methods
           (Demo.an_object 50000 "2024-06-01" Absent Absent Absent)
           (Demo.scanner 60)).
  - discriminate.
  - intros c Hc. injection Hc as <-. reflexivity.
Defined.

(** X20: a repository with more than 10000 stars and a parsable
    [created_at] is a "Popular Repository Spotlight", whatever its age, its
    forks, its description and its topics are, [null] included. *)
Theorem determine_content_type_popular {P : Platform} {Str : StrMethods}
    (repo : repo_object) (s : state) (stars : Z) (created_at : string)
    (created : datetime) :
  o_stargazers_count repo = Present stars ->
  o_created_at repo = Present created_at ->
  strptime created_at = Some created ->
  10000 < stars ->
  Functions.determine_content_type repo s
    = (Return PopularRepositorySpotlight, tick s).
Proof.
  intros Hstars Hfield Hparse Hpop.
  unfold Functions.determine_content_type. run_helper.
  rewrite Hstars, Hfield. simpl. rewrite Hparse. simpl.
  apply Z.ltb_lt in Hpop. rewrite Hpop. reflexivity.
Qed.

Lemma determine_content_type_popular_witness :
  @Functions.determine_content_type
    (Demo.platform (Demo.at_time "2025-01-01T00:00:00Z") (Demo.ok []))
    Demo.str_methods
    (Demo.an_object 50000 "2024-12-20T00:00:00Z" Null Null Null)
    (Demo.scanner 60)
  = (Return PopularRepositorySpotlight, tick (Demo.scanner 60)).
Proof.
  apply (@determine_content_type_popular
           (Demo.platform (Demo.at_time "2025-01-01T00:00:00Z") (Demo.ok []))
           Demo.str_methods
           (Demo.an_object 50000 "2024-12-20T00:00:00Z" Null Null Null)
           (Demo.scanner 60) 50000 "2024-12-20T00:00:00Z"
           (Demo.at_time "2024-12-20T00:00:00Z")).
  - reflexivity.
  - reflexivity.
  - reflexivity.
  - lia.
Defined.

(** Past the first three branches the description and the topics decide. *)
Lemma determine_content_type_fourth {P : Platform} {Str : StrMethods}
    (repo : repo_object) (s : state) :
  past_first_three repo (clock (ticks s)) ->
  Functions.determine_content_type repo s =
  match get_item (o_description repo) "" with
  | None => (Raise AttributeError, tick s)
  | Some description =>
      if str_contains "ai" (lower description)
      then (Return AIToolReview, tick s)
      else match get_item (o_topics repo) [] with
           | None => (Raise TypeError, tick s)
           | Some topics =>
               (Return (if mem "machine-learning" topics
                        then AIToolReview else RepositoryDeepDive), tick s)
           end
  end.
Proof.
  intros (stars & c & created & Hstars & Hfield & Hparse & Hpop & Hrising & Hgem).
  unfold Functions.determine_content_type. run_helper.
  rewrite Hstars, Hfield. simpl. rewrite Hparse. simpl.
  assert (E1 : (10000 <? stars) = false) by (apply Z.ltb_ge; exact Hpop).
  rewrite E1.
  assert (E2 : ((days (clock (ticks s) - created) <? 30) && (100 <? stars))%bool
               = false).
  { apply andb_false_iff.
    destruct Hrising; [left; apply Z.ltb_ge | right; apply Z.ltb_ge]; assumption. }
  rewrite E2.
  assert (Hforks : (if stars <? 1000
                    then get_item (o_forks_count repo) 0 <> None /\
                         (50 <? get (get_item (o_forks_count repo) 0) 0) = false
                    else True)).
  { destruct (stars <? 1000) eqn:E; [|exact I].
    apply Z.ltb_lt in E.
    destruct Hgem as [H|(forks & Hf & Hle)]; [lia|].
    rewrite Hf. split; [discriminate | apply Z.ltb_ge; exact Hle]. }
  destruct (stars <? 1000).
  - destruct Hforks as [Hsome Hle].
    destruct (get_item (o_forks_count repo) 0) as [forks|]; [|congruence].
    simpl in *. rewrite Hle.
    destruct (get_item (o_description repo) "") as [d|]; [|reflexivity].
    destruct (str_contains "ai" (lower d)); [reflexivity|].
    destruct (get_item (o_topics repo) []) as [ts|]; [|reflexivity].
    destruct (mem "machine-learning" ts); reflexivity.
  - simpl.
    destruct (get_item (o_description repo) "") as [d|]; [|reflexivity].
    destruct (str_contains "ai" (lower d)); [reflexivity|].
    destruct (get_item (o_topics repo) []) as [ts|]; [|reflexivity].
    destruct (mem "machine-learning" ts); reflexivity.
Qed.

(** X21: past the first three branches, a description whose lower-cased
    text contains the letters "ai" anywhere, inside a word too, makes the
    repository an "AI Tool Review"; the topics are not looked at. *)
Theorem determine_content_type_ai_substring {P : Platform}
    {Str : StrMethods} (repo : repo_object) (s : state)
    (description : string) :
  past_first_three repo (clock (ticks s)) ->
  o_description repo = Present description ->
  str_contains "ai" (lower description) = true ->
  Functions.determine_content_type repo s = (Return AIToolReview, tick s).
Proof.
  intros Hpast Hd Hai. rewrite (determine_content_type_fourth repo s Hpast).
  rewrite Hd. simpl. rewrite Hai. reflexivity.
Qed.

Lemma determine_content_type_ai_substring_witness :
  @Functions.determine_content_type
    (Demo.platform (Demo.at_time "2025-01-01T00:00:00Z") (Demo.ok []))
    Demo.str_methods
    (Demo.an_object 500 "2023-01-01T00:00:00Z" (Present "Go")
       (Present "A fast Email client for the terminal") Null)
    (Demo.scanner 60)
  = (Return AIToolReview, tick (Demo.scanner 60)).
Proof.
  apply (@determine_content_type_ai_substring
           (Demo.platform (Demo.at_time "2025-01-01T00:00:00Z") (Demo.ok []))
           Demo.str_methods
           (Demo.an_object 500 "2023-01-01T00:00:00Z" (Present "Go")
              (Present "A fast Email client for the terminal") Null)
           (Demo.scanner 60) "A fast Email client for the terminal").
  - exists 500, "2023-01-01T00:00:00Z", (Demo.at_time "2023-01-01T00:00:00Z").
    split; [reflexivity|]. split; [reflexivity|]. split; [reflexivity|].
    split; [lia|]. split.
    + left. vm_compute. discriminate.
    + right. exists 0. split; [reflexivity | lia].
  - reflexivity.
  - reflexivity.
Defined.

(** X22: past the first three branches, a repository whose description is
    [null] makes [determine_content_type] raise AttributeError. *)
Theorem determine_content_type_null_description {P : Platform}
    {Str : StrMethods} (repo : repo_object) (s : state) :
  past_first_three repo (clock (ticks s)) ->
  o_description repo = Null ->
  Functions.determine_content_type repo s = (Raise AttributeError, tick s).
Proof.
  intros Hpast Hd. rewrite (determine_content_type_fourth repo s Hpast).
  rewrite Hd. reflexivity.
Qed.

Lemma determine_content_type_null_description_witness :
  @Functions.determine_content_type
    (Demo.platform (Demo.at_time "2025-01-01T00:00:00Z") (Demo.ok []))
    Demo.str_methods
    (Demo.an_object 500 "2023-01-01T00:00:00Z" (Present "Go") Null
       (Present ["cli"]))
    (Demo.scanner 60)
  = (Raise AttributeError, tick (Demo.scanner 60)).
Proof.
  apply (@determine_content_type_null_description
           (Demo.platform (Demo.at_time "2025-01-01T00:00:00Z") (Demo.ok []))
           Demo.str_methods
           (Demo.an_object 500 "2023-01-01T00:00:00Z" (Present "Go") Null
              (Present ["cli"]))
           (Demo.scanner 60)).
  - exists 500, "2023-01-01T00:00:00Z", (Demo.at_time "2023-01-01T00:00:00Z").
    split; [reflexivity|]. split; [reflexivity|]. split; [reflexivity|].
    split; [lia|]. split.
    + left. vm_compute. discriminate.
    + right. exists 0. split; [reflexivity | lia].
  - reflexivity.
Defined.

Lemma append_each (topics tags : list string) :
  fold_left (fun tags topic => (tags ++ [topic])%list) topics tags
  = (tags ++ topics)%list.
Proof.
  revert tags. induction topics as [|t rest IH]; intro tags; simpl.
  - rewrite app_nil_r. reflexivity.
  - rewrite IH, <- app_assoc. reflexivity.
Qed.



(** X24: for a repository whose language is [null], as GitHub reports it
    when it detects none, [get_target_audience] raises AttributeError
    whatever the topics are, and [generate_video_tags] adds no language
    tag. *)
Theorem null_language {Str : StrMethods} (repo : repo_object) (s : state) :
  o_language repo = Null ->
  Functions.get_target_audience repo s = (Raise AttributeError, s) /\
  forall topics,
    get_item (o_topics repo) [] = Some topics ->
    Functions.generate_video_tags repo s
      = (Return (BASE_TAGS ++ firstn 5 topics)%list, s).
Proof.
  intro Hl. split.
  - unfold Functions.get_target_audience. run_helper. rewrite Hl. reflexivity.
  - intros topics Ht. unfold Functions.generate_video_tags. run_helper.
    rewrite Hl, Ht. simpl. rewrite append_each. reflexivity.
Qed.

Lemma null_language_witness :
  @Functions.get_target_audience Demo.str_methods
    (Demo.an_object 500 "2023-01-01T00:00:00Z" Null (Present "docs")
       (Present ["machine-learning"]))
    (Demo.scanner 60) = (Raise AttributeError, Demo.scanner 60).
Proof.
  apply (@null_language Demo.str_methods
           (Demo.an_object 500 "2023-01-01T00:00:00Z" Null (Present "docs")
              (Present ["machine-learning"]))
           (Demo.scanner 60)).
  reflexivity.
Defined.

(** X25: whenever [get_target_audience] answers with the AI/ML audience,
    [get_optimal_upload_time] on the same repository answers with the slot
    for AI topics: the two agree on what an AI repository is, a topic that
    lower-cases to "ai" or "machine-learning". *)
Theorem ai_audience_gets_ai_upload_time {Str : StrMethods}
    (repo : repo_object) (s s1 s2 : state) :
  Functions.get_target_audience repo s
    = (Return "AI/ML Engineers, Data Scientists", s1) ->
  Functions.get_optimal_upload_time repo s2
    = (Return "Tuesday 10 AM PST (high engagement from tech professionals)", s2).
Proof.
  unfold Functions.get_target_audience, Functions.get_optimal_upload_time,
    not_none, bind, ret, raise.
  destruct (get_item (o_language repo) "") as [language|]; [|discriminate].
  destruct (get_item (o_topics repo) []) as [topics|]; [|discriminate].
  cbv beta iota zeta.
  destruct (mem "machine-learning" (map lower topics)
            || mem "ai" (map lower topics))%bool eqn:Hml.
  - intros _.
    assert (Hex : existsb
                    (fun topic => mem topic ["ai"; "machine-learning"; "data-science"])
                    (map lower topics) = true).
    { apply existsb_exists. apply orb_true_iff in Hml.
      destruct Hml as [H|H]; apply mem_In in H.
      - exists "machine-learning". split; [exact H | reflexivity].
      - exists "ai". split; [exact H | reflexivity]. }
    rewrite Hex. reflexivity.
  - intro H.
    repeat match type of H with
           | context [if ?b then _ else _] => destruct b
           end; discriminate.
Qed.

Lemma ai_audience_gets_ai_upload_time_witness :
  @Functions.get_optimal_upload_time Demo.str_methods
    (Demo.an_object 500 "2023-01-01T00:00:00Z" (Present "Python") Null
       (Present ["React"; "Machine-Learning"]))
    (Demo.scanner 60)
  = (Return "Tuesday 10 AM PST (high engagement from tech professionals)",
     Demo.scanner 60).
Proof.
  apply (@ai_audience_gets_ai_upload_time Demo.str_methods
           (Demo.an_object 500 "2023-01-01T00:00:00Z" (Present "Python") Null
              (Present ["React"; "Machine-Learning"]))
           (Demo.scanner 60) (Demo.scanner 60) (Demo.scanner 60)).
  reflexivity.
Defined.
